(** * backfill.py: start-up performance backfill over nightlies or commits

    A shallow embedding of [backfill.py].  The script is sequential
    orchestration of external programs (HTTP download, [adb], [git],
    [gradlew], the start-up measuring script, the [analyze_durations]
    module), so the embedding is an exception-and-state monad over an
    explicit environment: every external call asks the environment for its
    outcome and is appended to a trace, and Python exceptions are values
    that short-circuit the rest of the computation. *)

From Stdlib Require Import ZArith List String Ascii Bool Lia.
Import ListNotations.
Local Open Scope string_scope.
Local Open Scope Z_scope.

(* ===================================================================== *)
(** ** Python values used by the script *)
(* ===================================================================== *)

(** The exceptions that can travel through the script. *)
Inductive exn : Type :=
| HTTPError (code : Z)          (* urllib.error.HTTPError, with its status *)
| URLError                      (* urllib.error.URLError that is no HTTPError *)
| FileNotFoundError
| AttributeError
| TypeError
| OverflowError
| UnicodeDecodeError
| OSError (what : string)
| Exception_ (msg : string).    (* raise Exception(msg) *)

Inductive result (A : Type) : Type :=
| Ok (a : A)
| Raise (e : exn).
Arguments Ok {A} a.
Arguments Raise {A} e.

Module Py.

Definition nl : string := String (ascii_of_nat 10) EmptyString.

Definition digit_char (d : nat) : ascii := ascii_of_nat (48 + d).

Definition is_digit (c : ascii) : bool :=
  let n := nat_of_ascii c in (48 <=? n)%nat && (n <=? 57)%nat.

(** [str(n)] for a non-negative int: decimal digits, most significant
    first.  [fuel] bounds the number of digits. *)
Fixpoint str_of_nat_aux (fuel n : nat) (acc : string) : string :=
  match fuel with
  | O => acc
  | S fuel' =>
      let acc' := String (digit_char (n mod 10)) acc in
      if (n / 10 =? 0)%nat then acc'
      else str_of_nat_aux fuel' (n / 10) acc'
  end.

Definition str_of_nat (n : nat) : string := str_of_nat_aux (S n) n "".

(** ["%0<w>d" % n] for a non-negative int. *)
Fixpoint zeros (k : nat) : string :=
  match k with
  | O => ""
  | S k' => String "0" (zeros k')
  end.

Definition zfill (w : nat) (n : Z) : string :=
  let s := str_of_nat (Z.to_nat n) in
  zeros (w - String.length s) ++ s.

(** [s.replace(a, b)] for one-character [a] and [b]. *)
Fixpoint replace_char (a b : ascii) (s : string) : string :=
  match s with
  | EmptyString => EmptyString
  | String c s' =>
      String (if Ascii.eqb c a then b else c) (replace_char a b s')
  end.

(** [s.split(sep)] for a one-character separator, as the first field and
    the list of the following ones: Python's result is never empty. *)
Fixpoint split_fields (sep : ascii) (s : string) : string * list string :=
  match s with
  | EmptyString => (EmptyString, [])
  | String c s' =>
      let (h, t) := split_fields sep s' in
      if Ascii.eqb c sep then (EmptyString, h :: t) else (String c h, t)
  end.

Definition split (sep : ascii) (s : string) : list string :=
  let (h, t) := split_fields sep s in h :: t.

(** [l[0]] on the result of [split], which always has a first field. *)
Definition first_field (sep : ascii) (s : string) : string :=
  fst (split_fields sep s).

(** [s.strip("\n")]. *)
Fixpoint lstrip (c : ascii) (s : string) : string :=
  match s with
  | EmptyString => EmptyString
  | String x s' => if Ascii.eqb x c then lstrip c s' else s
  end.

Fixpoint rstrip (c : ascii) (s : string) : string :=
  match s with
  | EmptyString => EmptyString
  | String x s' =>
      match rstrip c s' with
      | EmptyString => if Ascii.eqb x c then EmptyString else String x EmptyString
      | r => String x r
      end
  end.

Definition strip (c : ascii) (s : string) : string := rstrip c (lstrip c s).

(** Truthiness of a string: [bool(s)]. *)
Definition truthy (s : string) : bool :=
  match s with EmptyString => false | _ => true end.

(** Truthiness of an optional string argument ([None] or [""] is false). *)
Definition truthy_opt (o : option string) : bool :=
  match o with None => false | Some s => truthy s end.

Definition startswith_char (c : ascii) (s : string) : bool :=
  match s with String x _ => Ascii.eqb x c | EmptyString => false end.

Fixpoint endswith_char (c : ascii) (s : string) : bool :=
  match s with
  | EmptyString => false
  | String x EmptyString => Ascii.eqb x c
  | String _ s' => endswith_char c s'
  end.

(** [posixpath.join(a, *p)]: an absolute component restarts the path. *)
Definition join2 (path b : string) : string :=
  if startswith_char "/" b then b
  else if negb (truthy path) || endswith_char "/" path then path ++ b
  else path ++ "/" ++ b.

Definition os_path_join (a : string) (p : list string) : string :=
  fold_left join2 p a.

(** Whether a sequence of bytes is well-formed UTF-8, as the strict decoder
    of [bytes.decode('utf-8')] has it: shortest encodings only, no
    surrogates, nothing above U+10FFFF. *)
Definition is_continuation (y : nat) : bool :=
  (128 <=? y)%nat && (y <=? 191)%nat.

Fixpoint utf8_valid (s : string) : bool :=
  match s with
  | EmptyString => true
  | String a r1 =>
      let x := nat_of_ascii a in
      if (x <? 128)%nat then utf8_valid r1
      else
        match r1 with
        | EmptyString => false
        | String b r2 =>
            let y := nat_of_ascii b in
            if (194 <=? x)%nat && (x <=? 223)%nat
            then is_continuation y && utf8_valid r2
            else
              match r2 with
              | EmptyString => false
              | String c r3 =>
                  let z := nat_of_ascii c in
                  if (224 <=? x)%nat && (x <=? 239)%nat
                  then (if (x =? 224)%nat
                        then (160 <=? y)%nat && (y <=? 191)%nat
                        else if (x =? 237)%nat
                        then (128 <=? y)%nat && (y <=? 159)%nat
                        else is_continuation y)
                       && is_continuation z && utf8_valid r3
                  else
                    match r3 with
                    | EmptyString => false
                    | String d r4 =>
                        let v := nat_of_ascii d in
                        if (240 <=? x)%nat && (x <=? 244)%nat
                        then (if (x =? 240)%nat
                              then (144 <=? y)%nat && (y <=? 191)%nat
                              else if (x =? 244)%nat
                              then (128 <=? y)%nat && (y <=? 143)%nat
                              else is_continuation y)
                             && is_continuation z && is_continuation v
                             && utf8_valid r4
                        else false
                    end
              end
        end
  end.

(** [range(n)]: empty when [n <= 0]. *)
Definition range (n : Z) : list Z := map Z.of_nat (seq 0 (Z.to_nat n)).

End Py.

(* ===================================================================== *)
(** ** datetime and timedelta *)
(* ===================================================================== *)

(** A [datetime.datetime] is kept as its proleptic Gregorian ordinal
    ([toordinal()], day 1 is 0001-01-01) and the microsecond within that day
    (0 for a value parsed with ["%Y.%m.%d"], any value for [datetime.now()]).
    Year, month and day are recomputed from the ordinal when the value is
    printed. *)
Record datetime : Type := mkdatetime { ordinal : Z; usec : Z }.

(** A [datetime.timedelta], as its total number of microseconds. *)
Record timedelta : Type := mktimedelta { td_us : Z }.

Module DT.

Definition US_PER_DAY : Z := 86400000000.
Definition MAXORDINAL : Z := 3652059.      (* 9999-12-31 *)

Definition valid (d : datetime) : Prop :=
  1 <= ordinal d <= MAXORDINAL /\ 0 <= usec d < US_PER_DAY.

(** A value with no time of day, as [strptime(s, "%Y.%m.%d")] returns. *)
Definition is_date (d : datetime) : Prop := usec d = 0.

Definition total_us (d : datetime) : Z := ordinal d * US_PER_DAY + usec d.

(** [a - b] on datetimes. *)
Definition sub (a b : datetime) : timedelta :=
  mktimedelta (total_us a - total_us b).

(** [td.days]: timedelta normalises with floor division, so the field is
    negative as soon as the difference is. *)
Definition days (t : timedelta) : Z := td_us t / US_PER_DAY.

(** [timedelta(days=i)]. *)
Definition of_days (i : Z) : timedelta := mktimedelta (i * US_PER_DAY).

(** [d + td]; OverflowError when the day leaves [date.min .. date.max]. *)
Definition add (d : datetime) (t : timedelta) : result datetime :=
  let tot := total_us d + td_us t in
  let o := tot / US_PER_DAY in
  if (0 <? o) && (o <=? MAXORDINAL)
  then Ok (mkdatetime o (tot mod US_PER_DAY))
  else Raise OverflowError.

(** *** Calendar fields, for printing *)

Definition is_leap (y : Z) : bool :=
  (y mod 4 =? 0) && (negb (y mod 100 =? 0) || (y mod 400 =? 0)).

Definition days_in_month (y m : Z) : Z :=
  if m =? 2 then (if is_leap y then 29 else 28)
  else if (m =? 4) || (m =? 6) || (m =? 9) || (m =? 11) then 30
  else 31.

Definition days_before_year (y : Z) : Z :=
  let p := y - 1 in p * 365 + p / 4 - p / 100 + p / 400.

(** The month and day of the [n]-th day (from 0) of year [y]. *)
Fixpoint month_day (fuel : nat) (y m n : Z) : Z * Z :=
  match fuel with
  | O => (m, n + 1)
  | S fuel' =>
      let dim := days_in_month y m in
      if n <? dim then (m, n + 1) else month_day fuel' y (m + 1) (n - dim)
  end.

(** Year, month, day of an ordinal: the year is estimated from the mean
    year length and corrected by at most one. *)
Definition ymd (o : Z) : Z * Z * Z :=
  let y0 := (o - 1) * 400 / 146097 + 1 in
  let y := if days_before_year (y0 + 1) <? o then y0 + 1
           else if days_before_year y0 <? o then y0 else y0 - 1 in
  let (m, d) := month_day 11 y 1 (o - 1 - days_before_year y) in
  (y, m, d).

(** [datetime.strftime(d, "%Y.%m.%d")], the script's DATETIME_FORMAT; the
    year is written with four digits, as the documentation of [%Y] has
    it. *)
Definition strftime_ymd (d : datetime) : string :=
  let '(y, m, dd) := ymd (ordinal d) in
  Py.zfill 4 y ++ "." ++ Py.zfill 2 m ++ "." ++ Py.zfill 2 dd.

(** [str(d)]: ISO format with a space, microseconds only when non-zero. *)
Definition str (d : datetime) : string :=
  let '(y, m, dd) := ymd (ordinal d) in
  let s := usec d / 1000000 in
  let us := usec d mod 1000000 in
  Py.zfill 4 y ++ "-" ++ Py.zfill 2 m ++ "-" ++ Py.zfill 2 dd ++ " " ++
  Py.zfill 2 (s / 3600) ++ ":" ++ Py.zfill 2 (s / 60 mod 60) ++ ":" ++
  Py.zfill 2 (s mod 60) ++
  (if us =? 0 then "" else "." ++ Py.zfill 6 us).

End DT.

(* ===================================================================== *)
(** ** External calls, their trace, and the monad of the script *)
(* ===================================================================== *)

(** What a finished child process leaves behind, before the flags of
    [subprocess.run] decide how (and whether) its output is captured.
    Output is the bytes the process wrote; text is kept as its UTF-8
    bytes throughout.  For a call with [text=True] the decoding is done
    inside [subprocess.run], so an answer of the environment that is a
    process (and not an exception) carries output that was decoded. *)
Record raw_process : Type :=
  mkraw { raw_returncode : Z; raw_stdout : string; raw_stderr : string }.

(** The [stdout] / [stderr] attribute of a [CompletedProcess]: [None] when
    the stream was not captured, [bytes] by default, [str] with
    [text=True]. *)
Inductive stream : Type :=
| NoStream
| BytesStream (text : string)
| StrStream (text : string).

Record CompletedProcess : Type :=
  mkproc { returncode : Z; stdout : stream; stderr : stream }.

(** Which streams a call captures. *)
Inductive capture : Type :=
| CaptureNothing          (* no flag *)
| CaptureStdout           (* stdout=subprocess.PIPE *)
| CaptureBoth.            (* capture_output=True *)

Definition captured (text : bool) (s : string) : stream :=
  if text then StrStream s else BytesStream s.

Definition complete (c : capture) (text : bool) (r : raw_process)
  : CompletedProcess :=
  match c with
  | CaptureNothing => mkproc (raw_returncode r) NoStream NoStream
  | CaptureStdout =>
      mkproc (raw_returncode r) (captured text (raw_stdout r)) NoStream
  | CaptureBoth =>
      mkproc (raw_returncode r) (captured text (raw_stdout r))
             (captured text (raw_stderr r))
  end.

(** [x.decode('utf-8')]: only [bytes] has the method, and it raises on
    bytes that are not UTF-8. *)
Definition decode (x : stream) : result string :=
  match x with
  | BytesStream t =>
      if Py.utf8_valid t then Ok t else Raise UnicodeDecodeError
  | StrStream _ => Raise AttributeError
  | NoStream => Raise AttributeError
  end.

(** [x.split("\n")] with a [str] separator. *)
Definition split_lines (x : stream) : result (list string) :=
  match x with
  | StrStream t => Ok (Py.split (ascii_of_nat 10) t)
  | BytesStream _ => Raise TypeError
  | NoStream => Raise AttributeError
  end.

(** [a + b] where either operand may be [None]. *)
Definition str_add (a b : option string) : result string :=
  match a, b with
  | Some x, Some y => Ok (x ++ y)
  | _, _ => Raise TypeError
  end.

(** ["{}".format(x)] for an optional string. *)
Definition str_opt (o : option string) : string :=
  match o with Some s => s | None => "None" end.

(** Everything the script does to the outside, in program order. *)
Inductive event : Type :=
| EvUrlretrieve (url filename : string)
| EvRun (argv : list string) (cwd : option string)
| EvStderr (text : string)
| EvMkdir (path : string)
| EvDetectFiletype (path : string)
| EvReadFrom (path : string)
| EvSaveOutput (path : string).

(** The parsed command line ([argparse.Namespace]). *)
Inductive channel : Type := ChNightly | ChBeta | ChRelease | ChDebug.
Inductive arch : Type := ArmeabiV7a | Arm64V8a.
Inductive source : Type := BUILD_SRC_TASKCLUSTER | BUILD_SRC_COMMITS.

Definition channel_name (c : channel) : string :=
  match c with
  | ChNightly => "nightly"
  | ChBeta => "beta"
  | ChRelease => "release"
  | ChDebug => "debug"
  end.

Definition arch_name (a : arch) : string :=
  match a with ArmeabiV7a => "armeabi-v7a" | Arm64V8a => "arm64-v8a" end.

Module Args.
Record t : Type := mk {
  release_channel : channel;
  architecture : arch;
  build_source : source;
  startdate : option datetime;       (* None when --startdate is absent *)
  enddate : datetime;                (* defaults to datetime.now() *)
  startcommit : option string;
  endcommit : option string;
  git_remote_name : option string;
  repository_to_test_path : option string;
  cleanup : bool
}.
End Args.

(** One build to measure (the dict built by the fetch and build steps).
    [KEY_DATETIME] is [None] where the script stores [""]. *)
Record apk_metadata : Type := mkmeta {
  KEY_NAME : string;
  KEY_DATETIME : option datetime;
  KEY_COMMIT : string;
  KEY_ARCHITECTURE : string
}.

Definition NIGHTLY_BASE_URL (date : string) : string :=
  "https://firefox-ci-tc.services.mozilla.com/api/index/v1/task/mobile.v2.fenix.nightly."
  ++ date ++ "."
  ++ "latest.armeabi-v7a/artifacts/public%2Fbuild%2Farmeabi-v7a%2Ftarget.apk".

Definition BACKFILL_DIR : string := "backfill_output".

Definition DURATIONS_OUTPUT_FILE_TEMPLATE (run_number : nat) (apk : string)
  : string :=
  Py.str_of_nat run_number ++ "_durations_for_" ++ apk ++ ".txt".

Definition ANALYZED_DURATIONS_FILE_TEMPLATE (run_number : nat)
  (apk_name : string) : string :=
  Py.str_of_nat run_number ++ "_" ++ apk_name ++ "_perf_results.txt".

Definition FENIX_CHANNEL_TO_PKG (c : channel) : string :=
  match c with
  | ChNightly => "org.mozilla.fenix"
  | ChBeta => "org.mozilla.firefox.beta"
  | ChRelease => "org.mozilla.firefox"
  | ChDebug => "org.mozilla.fenix.debug"
  end.

Definition MEASURE_START_UP_SCRIPT : string := "./measure_start_up.py".

(** Pure sequencing of results, for code that can raise but touches
    nothing. *)
Fixpoint map_result {A B : Type} (f : A -> result B) (l : list A)
  : result (list B) :=
  match l with
  | [] => Ok []
  | x :: l' =>
      match f x with
      | Raise e => Raise e
      | Ok y =>
          match map_result f l' with
          | Raise e => Raise e
          | Ok ys => Ok (y :: ys)
          end
      end
  end.

(** [get_date_array_for_range], lines 86-88. *)
Definition get_date_array_for_range (startdate enddate : datetime)
  : result (list datetime) :=
  let delta_dates := DT.days (DT.sub enddate startdate) + 1 in
  map_result (fun i => DT.add startdate (DT.of_days i)) (Py.range delta_dates).

Definition source_eqb (a b : source) : bool :=
  match a, b with
  | BUILD_SRC_TASKCLUSTER, BUILD_SRC_TASKCLUSTER => true
  | BUILD_SRC_COMMITS, BUILD_SRC_COMMITS => true
  | _, _ => false
  end.

Definition is_None {A : Type} (o : option A) : bool :=
  match o with None => true | Some _ => false end.

(** [validate_args], lines 242-246. *)
Definition validate_args (args : Args.t) : result unit :=
  if source_eqb (Args.build_source args) BUILD_SRC_COMMITS
     && is_None (Args.repository_to_test_path args)
  then Raise (Exception_
    "Provide the path to your fenix repository to run this script with the commits option")
  else if source_eqb (Args.build_source args) BUILD_SRC_COMMITS
          && negb (Py.truthy_opt (Args.startcommit args))
          && negb (Py.truthy_opt (Args.endcommit args))
  then Raise (Exception_
    "Running backfill with commits between two commits requires a start and end commit")
  else Ok tt.

(* ===================================================================== *)
(** ** The script, over an arbitrary environment *)
(* ===================================================================== *)

(** How the outside answers each call, and what it becomes.  [W] is the
    state of everything outside the script (the artifact server, the device,
    the repository, the file system); [filetype], [measurements] and [stats]
    are values of the [analyze_durations] module, which the script only
    passes along. *)
Record Environment (filetype measurements stats W : Type) : Type := mkenv {
  urlretrieve_outcome : string -> string -> W -> option exn * W;
  run_outcome : list string -> option string -> W -> result raw_process * W;
  mkdir_outcome : string -> W -> option exn * W;
  detect_filetype_outcome : string -> W -> result filetype * W;
  read_from_outcome : filetype -> string -> W -> result measurements * W;
  to_stats_outcome : measurements -> result stats;
  save_output_outcome : stats -> string -> W -> option exn * W
}.
Arguments mkenv {filetype measurements stats W}.
Arguments urlretrieve_outcome {filetype measurements stats W}.
Arguments run_outcome {filetype measurements stats W}.
Arguments mkdir_outcome {filetype measurements stats W}.
Arguments detect_filetype_outcome {filetype measurements stats W}.
Arguments read_from_outcome {filetype measurements stats W}.
Arguments to_stats_outcome {filetype measurements stats W}.
Arguments save_output_outcome {filetype measurements stats W}.

(** The outside world together with what the script has done to it so far. *)
Record state (W : Type) : Type := mkstate { world : W; trace : list event }.
Arguments mkstate {W}.
Arguments world {W}.
Arguments trace {W}.

(** A computation of the script: a result or an exception, and the state
    it leaves (effects before a raise are kept). *)
Definition M (W A : Type) : Type := state W -> result A * state W.

Definition ret {W A : Type} (a : A) : M W A := fun s => (Ok a, s).

Definition bind {W A B : Type} (c : M W A) (k : A -> M W B) : M W B :=
  fun s =>
    match c s with
    | (Ok a, s') => k a s'
    | (Raise e, s') => (Raise e, s')
    end.

(** A pure computation that may raise. *)
Definition lift {W A : Type} (r : result A) : M W A := fun s => (r, s).

(** [try: body / except <class>: handler]: the handler is chosen by the
    exception, [None] when the class does not match. *)
Definition try_except {W A : Type} (body : M W A)
  (handler : exn -> option (M W A)) : M W A :=
  fun s =>
    match body s with
    | (Ok a, s') => (Ok a, s')
    | (Raise e, s') =>
        match handler e with
        | Some h => h s'
        | None => (Raise e, s')
        end
    end.

Notation "x <- c ;; k" := (bind c (fun x => k))
  (at level 61, c at next level, right associativity).
Notation "c ;; k" := (bind c (fun _ => k))
  (at level 61, right associativity).

(** A list comprehension whose element expression has effects. *)
Fixpoint comprehension {W A B : Type} (f : A -> M W B) (l : list A)
  : M W (list B) :=
  match l with
  | [] => ret []
  | x :: l' =>
      y <- f x ;;
      ys <- comprehension f l' ;;
      ret (y :: ys)
  end.

(** [for idx, x in enumerate(l): body(idx, x)], counting from [idx]. *)
Fixpoint for_enumerate {W A : Type} (idx : nat) (l : list A)
  (body : nat -> A -> M W unit) : M W unit :=
  match l with
  | [] => ret tt
  | x :: l' => body idx x ;; for_enumerate (S idx) l' body
  end.

(** [[e for e in l if e is not None]]. *)
Definition not_None {A : Type} (l : list (option A)) : list A :=
  flat_map (fun e => match e with Some a => [a] | None => [] end) l.

Definition of_option (o : option exn) : result unit :=
  match o with None => Ok tt | Some e => Raise e end.

Definition record {W : Type} (ev : event) (w : W) (s : state W) : state W :=
  mkstate w (trace s ++ [ev]).

Section Script.

Context {filetype measurements stats W : Type}.
Variable env : Environment filetype measurements stats W.

#[local] Abbreviation M := (M W).

(** [print(text, file=sys.stderr)]. *)
Definition print_stderr (text : string) : M unit :=
  fun s => (Ok tt, record (EvStderr text) (world s) s).

(** [urllib.request.urlretrieve(url, filename=filename)]. *)
Definition urlretrieve (url filename : string) : M unit :=
  fun s =>
    let (o, w) := urlretrieve_outcome env url filename (world s) in
    (of_option o, record (EvUrlretrieve url filename) w s).

(** [subprocess.run(argv, cwd=cwd, ...)], never with [check=True]. *)
Definition subprocess_run (argv : list string) (cwd : option string)
  (c : capture) (text : bool) : M CompletedProcess :=
  fun s =>
    let (o, w) := run_outcome env argv cwd (world s) in
    (match o with
     | Ok r => Ok (complete c text r)
     | Raise e => Raise e
     end, record (EvRun argv cwd) w s).

(** [Path(path).mkdir(parents=True, exist_ok=True)]. *)
Definition mkdir (path : string) : M unit :=
  fun s =>
    let (o, w) := mkdir_outcome env path (world s) in
    (of_option o, record (EvMkdir path) w s).

Definition detect_filetype (path : string) : M filetype :=
  fun s =>
    let (o, w) := detect_filetype_outcome env path (world s) in
    (o, record (EvDetectFiletype path) w s).

Definition read_from (ft : filetype) (path : string) : M measurements :=
  fun s =>
    let (o, w) := read_from_outcome env ft path (world s) in
    (o, record (EvReadFrom path) w s).

Definition to_stats (arr : measurements) : M stats :=
  lift (to_stats_outcome env arr).

Definition save_output (st : stats) (path : string) : M unit :=
  fun s =>
    let (o, w) := save_output_outcome env st path (world s) in
    (of_option o, record (EvSaveOutput path) w s).

(** *** Nightly path *)

(** [fetch_nightly], lines 70-83.  The [try] statement yields [Some r]
    when it returns [r] from the function and [None] when control falls
    through to the statement after it. *)
Definition fetch_nightly (download_date : datetime) (architecture : string)
  : M (option apk_metadata) :=
  let download_date_string := DT.strftime_ymd download_date in
  let nightly_url := NIGHTLY_BASE_URL download_date_string in
  let filename :=
    "nightly_" ++ Py.replace_char "." "_" download_date_string ++ ".apk" in
  returned <-
    try_except
      (urlretrieve nightly_url filename ;; ret None)
      (fun err =>
         match err with
         | HTTPError code =>
             Some ((if code =? 404
                    then print_stderr
                           (Py.nl ++ Py.nl ++ "The apk for "
                            ++ DT.str download_date
                            ++ " is not available at this " ++ nightly_url)
                    else ret tt) ;;
                   ret (Some (@None apk_metadata)))
         | _ => None
         end) ;;
  match returned with
  | Some r => ret r
  | None =>
      ret (Some (mkmeta filename (Some download_date) "" architecture))
  end.

(** [download_nightly_for_range], lines 91-94. *)
Definition download_nightly_for_range (array_of_dates : list datetime)
  (architecture : string) : M (list apk_metadata) :=
  apk_metadata_array <-
    comprehension (fun date => fetch_nightly date architecture)
                  array_of_dates ;;
  ret (not_None apk_metadata_array).

(** *** Measurement *)

(** [install_apk], lines 97-104. *)
Definition install_apk (apk_build_path : string) : M bool :=
  install_proc <-
    subprocess_run ["adb"; "install"; apk_build_path] None CaptureBoth false ;;
  if negb (returncode install_proc =? 0) then
    error <- lift (decode (stderr install_proc)) ;;
    print_stderr (Py.nl ++ "Unable to install: " ++ apk_build_path
                  ++ ". The associated error message was:" ++ Py.nl ++ error) ;;
    ret false
  else ret true.

(** [uninstall_apk], lines 107-112. *)
Definition uninstall_apk (package_id : string) : M unit :=
  uninstall_proc <-
    subprocess_run ["adb"; "uninstall"; package_id] None CaptureBoth false ;;
  if negb (returncode uninstall_proc =? 0) then
    error <- lift (decode (stderr uninstall_proc)) ;;
    print_stderr (Py.nl ++ "Unable to uninstall " ++ package_id
                  ++ ". The associated error message was:" ++ Py.nl ++ error)
  else ret tt.

(** [run_measure_start_up_script], lines 115-117. *)
Definition run_measure_start_up_script
  (path_to_measure_start_up_script durations_output_path build_type : string)
  : M unit :=
  subprocess_run [path_to_measure_start_up_script; build_type;
                  "cold_view_nav_start"; durations_output_path]
                 None CaptureStdout false ;;
  ret tt.

(** [get_result_from_durations], lines 141-152. *)
Definition get_result_from_durations (start_up_durations_path analyzed_path
  : string) : M unit :=
  got <-
    try_except
      (filetype <- detect_filetype start_up_durations_path ;;
       ret (Some filetype))
      (fun err =>
         match err with
         | FileNotFoundError =>
             Some (print_stderr
                     ("The file " ++ start_up_durations_path
                      ++ " doesn't exist, this is probably due to a failure in running"
                      ++ "the measure_start_up.py for the apk with the according date") ;;
                   ret None)
         | _ => None
         end) ;;
  match got with
  | None => ret tt
  | Some filetype =>
      measurement_arr <- read_from filetype start_up_durations_path ;;
      stats <- to_stats measurement_arr ;;
      save_output stats analyzed_path
  end.

(** [analyze_nightly_for_one_build], lines 120-138. *)
Definition analyze_nightly_for_one_build (index : nat)
  (package_id path_to_measure_start_up_script : string)
  (apk_metadata : apk_metadata) (build_type : string) : M unit :=
  uninstall_apk package_id ;;
  was_install_successful <- install_apk (KEY_NAME apk_metadata) ;;
  if was_install_successful : bool then
    mkdir BACKFILL_DIR ;;
    let apk_name := Py.first_field "." (KEY_NAME apk_metadata) in
    let durations_output_path :=
      Py.os_path_join BACKFILL_DIR
        [DURATIONS_OUTPUT_FILE_TEMPLATE index apk_name] in
    let analyzed_durations_path :=
      Py.os_path_join BACKFILL_DIR
        [ANALYZED_DURATIONS_FILE_TEMPLATE index apk_name] in
    run_measure_start_up_script path_to_measure_start_up_script
                                durations_output_path build_type ;;
    get_result_from_durations durations_output_path analyzed_durations_path
  else ret tt.

(** [run_performance_analysis_on_nightly], lines 155-157. *)
Definition run_performance_analysis_on_nightly
  (package_id path_to_measure_start_up_script : string)
  (array_of_apk_path : list apk_metadata) (build_type : string) : M unit :=
  for_enumerate 0 array_of_apk_path
    (fun idx apk_path =>
       analyze_nightly_for_one_build idx package_id
         path_to_measure_start_up_script apk_path build_type).

(** *** Commit path *)

(** [fetch_repository], lines 160-168. *)
Definition fetch_repository (repository_path : option string)
  (remote_name : string) : M unit :=
  let remote_repo_name :=
    if (String.length remote_name =? 0)%nat then "upstream"
    else remote_name in
  fetch_proc <-
    subprocess_run ["git"; "fetch"; remote_repo_name] repository_path
                   CaptureBoth false ;;
  if negb (returncode fetch_proc =? 0) then
    error <- lift (decode (stderr fetch_proc)) ;;
    print_stderr
      (Py.nl ++ Py.nl
       ++ "Something went wrong while fetching this repostirory: "
       ++ str_opt repository_path
       ++ " . The associated error message was:" ++ Py.nl ++ Py.nl ++ " "
       ++ Py.strip (ascii_of_nat 10) error)
  else ret tt.

(** [get_all_commits_in_commits_range], lines 171-182.  The call passes
    [text=True], so [commit_proc.stderr] is a [str]. *)
Definition get_all_commits_in_commits_range
  (start_commit end_commit repository_path : option string)
  : M (list string) :=
  spec0 <- lift (str_add start_commit (Some "^..")) ;;
  spec <- lift (str_add (Some spec0) end_commit) ;;
  commit_proc <-
    subprocess_run ["git"; "rev-list"; "--ancestry-path"; spec]
                   repository_path CaptureBoth true ;;
  (if negb (returncode commit_proc =? 0) then
     error <- lift (decode (stderr commit_proc)) ;;
     print_stderr
       (Py.nl ++ Py.nl
        ++ "Something went wrong while checking out this commit range: {start}..{end}"
        ++ "The associated error message was:" ++ Py.nl ++ Py.nl ++ " "
        ++ Py.strip (ascii_of_nat 10) error)
   else ret tt) ;;
  lines <- lift (split_lines (stdout commit_proc)) ;;
  ret (filter Py.truthy lines).

(** [build_apk_for_commit], lines 185-199.  The second message prints the
    error output of the checkout, as the source does. *)
Definition build_apk_for_commit (hash : string)
  (repository_path : option string) (build_type : string) : M unit :=
  checkout_proc <-
    subprocess_run ["git"; "checkout"; hash] repository_path
                   CaptureBoth false ;;
  if negb (returncode checkout_proc =? 0) then
    error <- lift (decode (stderr checkout_proc)) ;;
    print_stderr
      (Py.nl ++ Py.nl
       ++ "Something went wrong while checking out this commit: " ++ hash
       ++ " . The associated error message was:" ++ Py.nl ++ Py.nl ++ " "
       ++ Py.strip (ascii_of_nat 10) error)
  else
    assemble_proc <-
      subprocess_run ["./gradlew"; "assemble" ++ build_type] repository_path
                     CaptureBoth false ;;
    if negb (returncode assemble_proc =? 0) then
      error <- lift (decode (stderr checkout_proc)) ;;
      print_stderr
        (Py.nl ++ Py.nl
         ++ "Something went wrong while assembling this build: " ++ build_type
         ++ " . The associated error message was:" ++ Py.nl ++ Py.nl ++ " "
         ++ Py.strip (ascii_of_nat 10) error)
    else ret tt.

(** [build_apk_path_string], lines 202-205; [os.path.join] refuses
    [None]. *)
Definition build_apk_path_string (repository_path : option string)
  (build_type phone_architecture : string) : result string :=
  let apk_name :=
    "app-" ++ phone_architecture ++ "-" ++ build_type ++ ".apk" in
  match repository_path with
  | None => Raise TypeError
  | Some root =>
      Ok (Py.os_path_join root
            ["app"; "build"; "outputs"; "apk"; build_type; apk_name])
  end.

(** [move_apk_to_cwd], lines 208-215.  The [mv] is run without capturing
    anything, so [proc.stderr] is [None]. *)
Definition move_apk_to_cwd (apk_path commit_hash : string) : M string :=
  let new_apk_name := "apk_commit_" ++ commit_hash ++ ".apk" in
  proc <-
    subprocess_run ["mv"; apk_path; new_apk_name] None CaptureNothing false ;;
  (if negb (returncode proc =? 0) then
     error <- lift (decode (stderr proc)) ;;
     print_stderr
       (Py.nl ++ Py.nl
        ++ "Something went wrong while moving the built apk: " ++ apk_path
        ++ " . The associated error message was:" ++ Py.nl ++ Py.nl ++ " "
        ++ Py.strip (ascii_of_nat 10) error)
   else ret tt) ;;
  ret new_apk_name.

(** [build_apks_for_commits], lines 218-234: one descriptor per commit,
    in the order of the listing. *)
Definition build_apks_for_commits
  (start_commit end_commit repository_path : option string)
  (build_type architecture remote_name : string) : M (list apk_metadata) :=
  fetch_repository repository_path remote_name ;;
  array_of_commit_hash <-
    get_all_commits_in_commits_range start_commit end_commit
                                     repository_path ;;
  comprehension
    (fun commit =>
       build_apk_for_commit commit repository_path build_type ;;
       built_apk_name <-
         lift (build_apk_path_string repository_path build_type
                                     architecture) ;;
       new_apk_name <- move_apk_to_cwd built_apk_name commit ;;
       ret (mkmeta new_apk_name None commit architecture))
    array_of_commit_hash.

(** [cleanup], lines 237-239. *)
Definition cleanup (array_of_apk_path : list apk_metadata) : M unit :=
  for_enumerate 0 array_of_apk_path
    (fun _ i =>
       subprocess_run ["rm"; KEY_NAME i] None CaptureNothing false ;;
       ret tt).

(** [main], lines 249-272, after [parse_args]. *)
Definition main (args : Args.t) : M unit :=
  lift (validate_args args) ;;
  array_of_apk_metadata <-
    match Args.build_source args with
    | BUILD_SRC_TASKCLUSTER =>
        array_of_dates <-
          match Args.startdate args with
          | None => lift (Raise TypeError)
          | Some startdate =>
              lift (get_date_array_for_range startdate (Args.enddate args))
          end ;;
        download_nightly_for_range array_of_dates
          (arch_name (Args.architecture args))
    | BUILD_SRC_COMMITS =>
        build_apks_for_commits
          (Args.startcommit args) (Args.endcommit args)
          (Args.repository_to_test_path args)
          (channel_name (Args.release_channel args))
          (arch_name (Args.architecture args))
          (if Py.truthy_opt (Args.git_remote_name args)
           then str_opt (Args.git_remote_name args) else "")
    end ;;
  run_performance_analysis_on_nightly
    (FENIX_CHANNEL_TO_PKG (Args.release_channel args))
    MEASURE_START_UP_SCRIPT
    array_of_apk_metadata
    (channel_name (Args.release_channel args)) ;;
  if Args.cleanup args then cleanup array_of_apk_metadata else ret tt.

End Script.

(* ===================================================================== *)
(** ** Names for what the script asks for, prints and leaves behind *)
(* ===================================================================== *)

(** The request [fetch_nightly] makes for a date. *)
Definition nightly_url (d : datetime) : string :=
  NIGHTLY_BASE_URL (DT.strftime_ymd d).

(** The local file the nightly of a date is saved as. *)
Definition nightly_filename (d : datetime) : string :=
  "nightly_" ++ Py.replace_char "." "_" (DT.strftime_ymd d) ++ ".apk".

(** The message of [fetch_nightly] for a 404. *)
Definition not_available_message (d : datetime) : string :=
  Py.nl ++ Py.nl ++ "The apk for " ++ DT.str d
  ++ " is not available at this " ++ nightly_url d.



Definition missing_durations (path : string) : string :=
  "The file " ++ path
  ++ " doesn't exist, this is probably due to a failure in running"
  ++ "the measure_start_up.py for the apk with the according date".

(** A process whose failure can be reported: it succeeded, so that there
    is nothing to report, or its error output is UTF-8, so that the
    message can be built. *)
Definition reportable (p : raw_process) : bool :=
  (raw_returncode p =? 0) || Py.utf8_valid (raw_stderr p).



(** An event of reading the durations at [durations] and saving the
    statistics at [analyzed]. *)
Definition reads_and_saves (durations analyzed : string) (ev : event) : Prop :=
  match ev with
  | EvDetectFiletype p => p = durations
  | EvReadFrom p => p = durations
  | EvSaveOutput p => p = analyzed
  | EvStderr _ => True
  | _ => False
  end.

(** The body of the loop of [run_performance_analysis_on_nightly]. *)
Definition analyze {filetype measurements stats W : Type}
  (env : Environment filetype measurements stats W)
  (package_id script build_type : string) (idx : nat) (apk : apk_metadata)
  : M W unit :=
  analyze_nightly_for_one_build env idx package_id script apk build_type.

(** [c in s]. *)
Fixpoint occurs (c : ascii) (s : string) : bool :=
  match s with
  | EmptyString => false
  | String x s' => Ascii.eqb x c || occurs c s'
  end.

(** The paths of the two files of the build at index [idx]. *)
Definition durations_path (idx : nat) (apk : apk_metadata) : string :=
  "backfill_output/" ++ Py.str_of_nat idx ++ "_durations_for_"
  ++ Py.first_field "." (KEY_NAME apk) ++ ".txt".

Definition analyzed_path (idx : nat) (apk : apk_metadata) : string :=
  "backfill_output/" ++ Py.str_of_nat idx ++ "_"
  ++ Py.first_field "." (KEY_NAME apk) ++ "_perf_results.txt".

(** The message of [fetch_repository]. *)
Definition fetch_failed (repository_path : option string) (error : string)
  : string :=
  Py.nl ++ Py.nl ++ "Something went wrong while fetching this repostirory: "
  ++ str_opt repository_path
  ++ " . The associated error message was:" ++ Py.nl ++ Py.nl ++ " "
  ++ Py.strip (ascii_of_nat 10) error.

(** The downloads asked for during a run, as (URL, file name). *)
Definition requests (t : list event) : list (string * string) :=
  flat_map (fun ev =>
              match ev with
              | EvUrlretrieve url filename => [(url, filename)]
              | _ => []
              end) t.

(** The descriptor [fetch_nightly] returns for a date it could download. *)
Definition nightly_descriptor (d : datetime) (architecture : string)
  : apk_metadata :=
  mkmeta (nightly_filename d) (Some d) "" architecture.

(** The descriptor [build_apks_for_commits] appends for a commit. *)
Definition commit_descriptor (architecture commit : string) : apk_metadata :=
  mkmeta ("apk_commit_" ++ commit ++ ".apk") None commit architecture.

(** [l1] is [l2] with some elements left out, the others in their order. *)
Inductive subseq {A : Type} : list A -> list A -> Prop :=
| subseq_nil : subseq [] []
| subseq_skip (x : A) (l1 l2 : list A) : subseq l1 l2 -> subseq l1 (x :: l2)
| subseq_take (x : A) (l1 l2 : list A) :
    subseq l1 l2 -> subseq (x :: l1) (x :: l2).

(** [s.isdigit()] on ASCII text (true on the empty string here). *)
Fixpoint all_digits (s : string) : bool :=
  match s with
  | EmptyString => true
  | String c r => Py.is_digit c && all_digits r
  end.

(** [int(s)] for a string of decimal digits, with the value read so far. *)
Fixpoint int_of_digits (acc : nat) (s : string) : nat :=
  match s with
  | EmptyString => acc
  | String c r => int_of_digits (10 * acc + (nat_of_ascii c - 48)) r
  end.

(** The messages of [build_apk_for_commit]. *)
Definition checkout_failed (hash error : string) : string :=
  Py.nl ++ Py.nl ++ "Something went wrong while checking out this commit: "
  ++ hash ++ " . The associated error message was:" ++ Py.nl ++ Py.nl ++ " "
  ++ Py.strip (ascii_of_nat 10) error.

Definition assemble_failed (build_type error : string) : string :=
  Py.nl ++ Py.nl ++ "Something went wrong while assembling this build: "
  ++ build_type ++ " . The associated error message was:" ++ Py.nl ++ Py.nl
  ++ " " ++ Py.strip (ascii_of_nat 10) error.

(** What [git rev-list] prints for a list of commits: one hash per line. *)
Fixpoint rev_list_output (hashes : list string) : string :=
  match hashes with
  | [] => ""
  | h :: rest => h ++ Py.nl ++ rev_list_output rest
  end.

(** A directory as a prefix of the paths below it, the way [os.path.join]
    continues it: nothing is added to an empty path or after a ['/']. *)
Definition as_directory (path : string) : string :=
  if negb (Py.truthy path) || Py.endswith_char "/" path then path
  else path ++ "/".

(** The rest of [main] once the builds are known: the measurement loop
    over them, then the cleanup when it was asked for. *)
Definition measure_and_cleanup {filetype measurements stats W : Type}
  (env : Environment filetype measurements stats W) (args : Args.t)
  (builds : list apk_metadata) : M W unit :=
  run_performance_analysis_on_nightly env
    (FENIX_CHANNEL_TO_PKG (Args.release_channel args))
    MEASURE_START_UP_SCRIPT builds
    (channel_name (Args.release_channel args)) ;;
  if Args.cleanup args then cleanup env builds else ret tt.

(** The artifacts handed to [adb install] during a run. *)
Definition installs (t : list event) : list string :=
  flat_map (fun ev =>
              match ev with
              | EvRun [program; command; apk] None =>
                  if String.eqb program "adb" && String.eqb command "install"
                  then [apk] else []
              | _ => []
              end) t.

(* ===================================================================== *)
(** ** Concrete environments, for running the script on examples *)
(* ===================================================================== *)

Module Demo.

(** The world only counts the calls made to it; every answer is a
    function of the request. *)
Definition scripted
  (download : string -> option exn)
  (process : list string -> result raw_process)
  (durations : string -> result unit)
  : Environment unit unit unit nat :=
  mkenv
    (fun url _ w => (download url, S w))
    (fun argv _ w => (process argv, S w))
    (fun _ w => (None, S w))
    (fun path w => (durations path, S w))
    (fun _ _ w => (Ok tt, S w))
    (fun _ => Ok tt)
    (fun _ _ w => (None, S w)).

Definition start : state nat := mkstate 0%nat [].

Definition exits (code : Z) (err : string) : result raw_process :=
  Ok (mkraw code "" err).

Definition jan (day : Z) : datetime := mkdatetime (737790 + day) 0.

Definition url_of (d : datetime) : string :=
  NIGHTLY_BASE_URL (DT.strftime_ymd d).

(** An artifact server that has every nightly but that of 2021-01-02,
    and a device on which everything works. *)
Definition missing_jan2 : Environment unit unit unit nat :=
  scripted
    (fun url => if String.eqb url (url_of (jan 2))
                then Some (HTTPError 404) else None)
    (fun _ => exits 0 "")
    (fun _ => Ok tt).

(** An artifact server that answers 500 for 2021-01-02. *)
Definition broken_jan2 : Environment unit unit unit nat :=
  scripted
    (fun url => if String.eqb url (url_of (jan 2))
                then Some (HTTPError 500) else None)
    (fun _ => exits 0 "")
    (fun _ => Ok tt).

(** No connection to the artifact server at all. *)
Definition offline : Environment unit unit unit nat :=
  scripted (fun _ => Some URLError) (fun _ => exits 0 "") (fun _ => Ok tt).

Definition is_argv (prefix argv : list string) : bool :=
  match list_eq_dec string_dec prefix (firstn (List.length prefix) argv) with
  | left _ => true
  | right _ => false
  end.

(** A device that has nothing to uninstall and refuses to install
    [nightly_2021_01_02.apk]; the measuring script leaves no file for
    [nightly_2021_01_03.apk]. *)
Definition picky_device : Environment unit unit unit nat :=
  scripted
    (fun _ => None)
    (fun argv =>
       if is_argv ["adb"; "uninstall"] argv then exits 1 "Failure"
       else if is_argv ["adb"; "install"; "nightly_2021_01_02.apk"] argv
       then exits 1 "INSTALL_FAILED"
       else exits 0 "")
    (fun path =>
       if String.eqb path "backfill_output/2_durations_for_nightly_2021_01_03.txt"
       then Raise FileNotFoundError else Ok tt).

(** A repository in which [git rev-list] fails (unknown commit). *)
Definition unknown_commit : Environment unit unit unit nat :=
  scripted
    (fun _ => None)
    (fun argv =>
       if is_argv ["git"; "rev-list"] argv
       then exits 128 "fatal: bad revision"
       else exits 0 "")
    (fun _ => Ok tt).

(** A repository with two commits in the range, where nothing fails. *)
Definition good_repo : Environment unit unit unit nat :=
  scripted
    (fun _ => None)
    (fun argv =>
       if is_argv ["git"; "rev-list"] argv
       then Ok (mkraw 0 ("c2" ++ Py.nl ++ "c1" ++ Py.nl) "")
       else exits 0 "")
    (fun _ => Ok tt).

(** A device on which everything works, but the durations file cannot be
    opened. *)
Definition locked_output : Environment unit unit unit nat :=
  scripted (fun _ => None) (fun _ => exits 0 "")
           (fun _ => Raise (OSError "Permission denied")).

(** A device on which everything works, but the durations file is gone
    when it is read. *)
Definition vanishing_output : Environment unit unit unit nat :=
  mkenv
    (fun _ _ w => (None, S w))
    (fun _ _ w => (exits 0 "", S w))
    (fun _ w => (None, S w))
    (fun _ w => (Ok tt, S w))
    (fun _ _ w => (Raise FileNotFoundError, S w))
    (fun _ => Ok tt)
    (fun _ _ w => (None, S w)).

(** A repository in which the listed commit cannot be checked out. *)
Definition bad_checkout : Environment unit unit unit nat :=
  scripted
    (fun _ => None)
    (fun argv =>
       if is_argv ["git"; "checkout"] argv
       then exits 1 ("error: pathspec 'c1' did not match" ++ Py.nl)
       else exits 0 "")
    (fun _ => Ok tt).

(** A repository whose checkout works (and says so on its error output)
    but whose compilation fails. *)
Definition bad_compile : Environment unit unit unit nat :=
  scripted
    (fun _ => None)
    (fun argv =>
       if is_argv ["git"; "checkout"] argv
       then exits 0 ("HEAD is now at c1" ++ Py.nl)
       else if is_argv ["./gradlew"] argv
       then exits 1 "BUILD FAILED"
       else exits 0 "")
    (fun _ => Ok tt).

(** A working directory into which nothing can be moved. *)
Definition no_apk : Environment unit unit unit nat :=
  scripted
    (fun _ => None)
    (fun argv => if is_argv ["mv"] argv then exits 1 "" else exits 0 "")
    (fun _ => Ok tt).

(** A repository whose remote cannot be reached. *)
Definition offline_remote : Environment unit unit unit nat :=
  scripted
    (fun _ => None)
    (fun argv =>
       if is_argv ["git"; "fetch"] argv
       then exits 128 "fatal: unable to access"
       else exits 0 "")
    (fun _ => Ok tt).

(** Bytes that are not UTF-8. *)
Definition garbled : string :=
  String (ascii_of_nat 255) (String (ascii_of_nat 254) EmptyString).

(** A repository whose [git] fails, on fetch and on checkout, with error
    output that is not UTF-8. *)
Definition garbled_git : Environment unit unit unit nat :=
  scripted
    (fun _ => None)
    (fun argv => if is_argv ["git"] argv then exits 1 garbled else exits 0 "")
    (fun _ => Ok tt).


Definition nightly_args (s e : datetime) : Args.t :=
  Args.mk ChNightly ArmeabiV7a BUILD_SRC_TASKCLUSTER (Some s) e
          None None None None false.

Definition commit_args (startcommit endcommit repository : option string)
  : Args.t :=
  Args.mk ChDebug Arm64V8a BUILD_SRC_COMMITS None (jan 1)
          startcommit endcommit None repository false.

(** The three nightlies of a range, as [download_nightly_for_range]
    describes them. *)
Definition v7a : string := "armeabi-v7a".

Definition build (day : Z) : apk_metadata :=
  mkmeta ("nightly_" ++ Py.replace_char "." "_" (DT.strftime_ymd (jan day))
          ++ ".apk")
         (Some (jan day)) "" v7a.

Definition builds : list apk_metadata := [build 1; build 2; build 3].

Definition pkg : string := FENIX_CHANNEL_TO_PKG ChNightly.
Definition script : string := MEASURE_START_UP_SCRIPT.
Definition bt : string := channel_name ChNightly.

(** The state [env] is in once the first [n] builds have been analysed. *)
Definition analysed (env : Environment unit unit unit nat) (n : nat)
  : state nat :=
  snd (run_performance_analysis_on_nightly env pkg script (firstn n builds)
         bt start).

(** The states a build goes through up to the run of the measuring
    script. *)
Definition uninstalled (env : Environment unit unit unit nat) (s : state nat)
  : state nat :=
  snd (uninstall_apk env pkg s).

Definition installed (env : Environment unit unit unit nat)
  (apk : apk_metadata) (s : state nat) : state nat :=
  snd (install_apk env (KEY_NAME apk) (uninstalled env s)).

Definition prepared (env : Environment unit unit unit nat)
  (apk : apk_metadata) (s : state nat) : state nat :=
  snd (mkdir env BACKFILL_DIR (installed env apk s)).

Definition measured (env : Environment unit unit unit nat) (path : string)
  (apk : apk_metadata) (s : state nat) : state nat :=
  snd (run_measure_start_up_script env script path bt (prepared env apk s)).

End Demo.

(* ===================================================================== *)
(** ** Printing dates *)
(* ===================================================================== *)

Example strftime_2021 :
  DT.strftime_ymd (mkdatetime 737791 0) = "2021.01.01".
Proof. vm_compute. reflexivity. Qed.

Example strftime_leap :
  DT.strftime_ymd (mkdatetime 737484 0) = "2020.02.29"
  /\ DT.strftime_ymd (mkdatetime 730485 0) = "2000.12.31"
  /\ DT.strftime_ymd (mkdatetime 693655 0) = "1900.03.01"
  /\ DT.strftime_ymd (mkdatetime 3652059 0) = "9999.12.31"
  /\ DT.strftime_ymd (mkdatetime 1 0) = "0001.01.01".
Proof. vm_compute. repeat split. Qed.

Example str_datetime :
  DT.str (mkdatetime 737791 3723000045) = "2021-01-01 01:02:03.000045"
  /\ DT.str (mkdatetime 737791 0) = "2021-01-01 00:00:00".
Proof. vm_compute. split; reflexivity. Qed.

(* ===================================================================== *)
(** ** Date ranges *)
(* ===================================================================== *)

Lemma map_result_pointwise {A B : Type} (f : A -> result B) (g : A -> B)
  (l : list A) :
  (forall x, In x l -> f x = Ok (g x)) ->
  map_result f l = Ok (map g l).
Proof.
  induction l as [|x l IH]; intros Hf; simpl.
  - reflexivity.
  - rewrite (Hf x) by (left; reflexivity).
    rewrite IH by (intros y Hy; apply Hf; right; exact Hy).
    reflexivity.
Qed.

Lemma in_range (n i : Z) : In i (Py.range n) <-> 0 <= i < n.
Proof.
  unfold Py.range. rewrite in_map_iff. split.
  - intros [k [<- Hk]]. apply in_seq in Hk. lia.
  - intros Hi. exists (Z.to_nat i). split; [lia|]. apply in_seq. lia.
Qed.

Lemma range_length (n : Z) : List.length (Py.range n) = Z.to_nat n.
Proof. unfold Py.range. now rewrite length_map, length_seq. Qed.

Lemma range_nth (n : Z) (k : nat) :
  (k < Z.to_nat n)%nat -> nth_error (Py.range n) k = Some (Z.of_nat k).
Proof.
  intros Hk. unfold Py.range.
  rewrite nth_error_map, nth_error_seq.
  destruct (Nat.ltb_spec k (Z.to_nat n)); [reflexivity | lia].
Qed.

Lemma days_sub (a b : datetime) :
  0 <= usec a < DT.US_PER_DAY -> 0 <= usec b < DT.US_PER_DAY ->
  usec b <= usec a ->
  DT.days (DT.sub a b) = ordinal a - ordinal b.
Proof.
  intros Ha Hb Hle. unfold DT.days, DT.sub, DT.total_us; simpl.
  replace (ordinal a * DT.US_PER_DAY + usec a
           - (ordinal b * DT.US_PER_DAY + usec b))
    with ((ordinal a - ordinal b) * DT.US_PER_DAY + (usec a - usec b)) by ring.
  rewrite Z.div_add_l by (unfold DT.US_PER_DAY; lia).
  rewrite Z.div_small by lia. lia.
Qed.

Lemma days_sub_negative (a b : datetime) :
  DT.total_us a < DT.total_us b -> DT.days (DT.sub a b) < 0.
Proof.
  intros Hlt. unfold DT.days, DT.sub; simpl.
  apply Z.div_lt_upper_bound; unfold DT.US_PER_DAY; lia.
Qed.

Lemma add_days (d : datetime) (i : Z) :
  0 <= usec d < DT.US_PER_DAY ->
  0 < ordinal d + i <= DT.MAXORDINAL ->
  DT.add d (DT.of_days i) = Ok (mkdatetime (ordinal d + i) (usec d)).
Proof.
  intros Hu Ho. unfold DT.add, DT.of_days, DT.total_us; simpl.
  replace (ordinal d * DT.US_PER_DAY + usec d + i * DT.US_PER_DAY)
    with ((ordinal d + i) * DT.US_PER_DAY + usec d) by ring.
  rewrite Z.div_add_l by (unfold DT.US_PER_DAY; lia).
  rewrite Z.div_small by lia.
  rewrite Z.add_comm with (n := (ordinal d + i) * DT.US_PER_DAY).
  rewrite Z.mod_add by (unfold DT.US_PER_DAY; lia).
  rewrite Z.mod_small by lia.
  rewrite Z.add_0_r.
  destruct (Z.ltb_spec 0 (ordinal d + i)); [|lia].
  destruct (Z.leb_spec (ordinal d + i) DT.MAXORDINAL); [|lia].
  reflexivity.
Qed.

(** The closed form of the enumeration: day [i] of the result is
    [startdate] moved by [i] days, for as many days as the two ordinals are
    apart, plus one. *)
Lemma get_date_array_for_range_closed (startdate enddate : datetime) :
  DT.valid startdate -> DT.valid enddate ->
  usec startdate <= usec enddate ->
  get_date_array_for_range startdate enddate =
  Ok (map (fun i => mkdatetime (ordinal startdate + i) (usec startdate))
          (Py.range (ordinal enddate - ordinal startdate + 1))).
Proof.
  intros [Hso Hsu] [Heo Heu] Hle. unfold get_date_array_for_range.
  rewrite days_sub by assumption.
  apply map_result_pointwise. intros i Hi. apply in_range in Hi.
  apply add_days; [assumption | lia].
Qed.

(** C1. For dates [startdate] and [enddate] with [enddate] not earlier than
    [startdate], [get_date_array_for_range] returns (it does not raise) the
    list of the days from [startdate] to [enddate]: it has one entry per day
    of the closed interval, entry [k] is [startdate] plus [k] days, so the
    list starts at [startdate], grows by exactly one day per entry, and ends
    on [enddate].  The start may carry any time of day not later than the
    end's (a date parsed from the command line has none). *)
Theorem get_date_array_for_range_inclusive (startdate enddate : datetime) :
  DT.valid startdate -> DT.valid enddate ->
  usec startdate <= usec enddate ->
  DT.total_us startdate <= DT.total_us enddate ->
  exists l,
    get_date_array_for_range startdate enddate = Ok l
    /\ Z.of_nat (List.length l) = ordinal enddate - ordinal startdate + 1
    /\ (forall k, (k < List.length l)%nat ->
          nth_error l k =
          Some (mkdatetime (ordinal startdate + Z.of_nat k) (usec startdate)))
    /\ hd_error l = Some startdate
    /\ (DT.is_date startdate -> DT.is_date enddate ->
        nth_error l (List.length l - 1) = Some enddate).
Proof.
  intros Hs He Hle Htot.
  assert (Hord : ordinal startdate <= ordinal enddate).
  { destruct Hs as [_ Hsu], He as [_ Heu]. unfold DT.total_us in Htot.
    unfold DT.US_PER_DAY in *. nia. }
  eexists. split; [apply get_date_array_for_range_closed; assumption|].
  set (n := ordinal enddate - ordinal startdate + 1).
  assert (Hlen : List.length
            (map (fun i => mkdatetime (ordinal startdate + i) (usec startdate))
                 (Py.range n)) = Z.to_nat n)
    by (rewrite length_map; apply range_length).
  assert (Hnth : forall k, (k < Z.to_nat n)%nat ->
            nth_error
              (map (fun i => mkdatetime (ordinal startdate + i) (usec startdate))
                   (Py.range n)) k
            = Some (mkdatetime (ordinal startdate + Z.of_nat k)
                               (usec startdate))).
  { intros k Hk. rewrite nth_error_map, range_nth by exact Hk. reflexivity. }
  rewrite Hlen. repeat split.
  - subst n. lia.
  - exact Hnth.
  - destruct startdate as [o u]. subst n. simpl in *.
    specialize (Hnth 0%nat ltac:(lia)). simpl in Hnth.
    rewrite Z.add_0_r in Hnth.
    destruct (map _ _); [discriminate | exact Hnth].
  - intros Hds Hde. rewrite Hnth by (subst n; lia).
    destruct enddate as [oe ue], startdate as [os us].
    unfold DT.is_date in *. simpl in *. subst. f_equal. f_equal. lia.
Qed.

Lemma get_date_array_for_range_inclusive_witness :
  exists l,
    get_date_array_for_range (Demo.jan 1) (Demo.jan 3) = Ok l
    /\ Z.of_nat (List.length l) = ordinal (Demo.jan 3) - ordinal (Demo.jan 1) + 1
    /\ (forall k, (k < List.length l)%nat ->
          nth_error l k =
          Some (mkdatetime (ordinal (Demo.jan 1) + Z.of_nat k)
                           (usec (Demo.jan 1))))
    /\ hd_error l = Some (Demo.jan 1)
    /\ (DT.is_date (Demo.jan 1) -> DT.is_date (Demo.jan 3) ->
        nth_error l (List.length l - 1) = Some (Demo.jan 3)).
Proof.
  apply (get_date_array_for_range_inclusive (Demo.jan 1) (Demo.jan 3)).
  - unfold DT.valid, DT.MAXORDINAL, DT.US_PER_DAY; simpl; lia.
  - unfold DT.valid, DT.MAXORDINAL, DT.US_PER_DAY; simpl; lia.
  - simpl; lia.
  - unfold DT.total_us, DT.US_PER_DAY; simpl; lia.
Defined.

(** An end strictly before the start gives a non-positive count, and
    [range] of it is empty. *)
Lemma get_date_array_for_range_backwards (startdate enddate : datetime) :
  DT.total_us enddate < DT.total_us startdate ->
  get_date_array_for_range startdate enddate = Ok [].
Proof.
  intros Hlt. unfold get_date_array_for_range.
  pose proof (days_sub_negative enddate startdate Hlt) as Hneg.
  unfold Py.range.
  replace (Z.to_nat (DT.days (DT.sub enddate startdate) + 1)) with 0%nat by lia.
  reflexivity.
Qed.

(* ===================================================================== *)
(** ** Sequencing lemmas *)
(* ===================================================================== *)

Lemma bind_ok {W A B : Type} (c : M W A) (k : A -> M W B) s a s' :
  c s = (Ok a, s') -> bind c k s = k a s'.
Proof. intros H. unfold bind. now rewrite H. Qed.

Lemma bind_raise {W A B : Type} (c : M W A) (k : A -> M W B) s e s' :
  c s = (Raise e, s') -> bind c k s = (Raise e, s').
Proof. intros H. unfold bind. now rewrite H. Qed.

Lemma not_None_app {A : Type} (l1 l2 : list (option A)) :
  not_None (l1 ++ l2) = (not_None l1 ++ not_None l2)%list.
Proof. unfold not_None. apply flat_map_app. Qed.

(** A comprehension over [l1 ++ l2] is the one over [l1] followed, in the
    state it leaves, by the one over [l2]. *)
Lemma comprehension_app {W A B : Type} (f : A -> M W B) (l1 l2 : list A) s :
  comprehension f (l1 ++ l2) s =
  match comprehension f l1 s with
  | (Ok r1, s1) =>
      match comprehension f l2 s1 with
      | (Ok r2, s2) => (Ok (r1 ++ r2)%list, s2)
      | (Raise e, s2) => (Raise e, s2)
      end
  | (Raise e, s1) => (Raise e, s1)
  end.
Proof.
  revert s. induction l1 as [|x l1 IH]; intros s; simpl.
  - unfold ret. destruct (comprehension f l2 s) as [[r|e] s2]; reflexivity.
  - unfold bind. destruct (f x s) as [[y|e] s1]; [|reflexivity].
    rewrite IH.
    destruct (comprehension f l1 s1) as [[r1|e] s2]; [|reflexivity].
    unfold ret.
    destruct (comprehension f l2 s2) as [[r2|e] s3]; reflexivity.
Qed.

(** A loop over [l1 ++ x :: l2] whose first part ends normally goes on with
    [x] at index [length l1], and then with [l2]. *)
Lemma for_enumerate_app {W A : Type} (body : nat -> A -> M W unit)
  (l1 l2 : list A) (idx : nat) s s1 :
  for_enumerate idx l1 body s = (Ok tt, s1) ->
  for_enumerate idx (l1 ++ l2) body s =
  for_enumerate (idx + List.length l1) l2 body s1.
Proof.
  revert idx s. induction l1 as [|x l1 IH]; intros idx s H; simpl in *.
  - unfold ret in H. injection H as <-. now rewrite Nat.add_0_r.
  - unfold bind in *. destruct (body idx x s) as [[[]|e] s'].
    + rewrite (IH _ _ H). f_equal. lia.
    + discriminate.
Qed.

Lemma for_enumerate_step {W A : Type} (body : nat -> A -> M W unit)
  (l1 l2 : list A) (x : A) s0 s s' :
  for_enumerate 0 l1 body s0 = (Ok tt, s) ->
  body (List.length l1) x s = (Ok tt, s') ->
  for_enumerate 0 (l1 ++ x :: l2) body s0 =
  for_enumerate (S (List.length l1)) l2 body s'.
Proof.
  intros H1 Hx. rewrite (for_enumerate_app _ _ _ _ _ _ H1). simpl.
  now rewrite (bind_ok _ _ _ _ _ Hx).
Qed.

(* ===================================================================== *)
(** ** The nightly path *)
(* ===================================================================== *)

Section Nightly.

Context {filetype measurements stats W : Type}.
Variable env : Environment filetype measurements stats W.

(** What [fetch_nightly] does, by the outcome of the download. *)
Lemma fetch_nightly_cases (d : datetime) (a : string) (s : state W) o w :
  urlretrieve_outcome env (nightly_url d) (nightly_filename d) (world s)
  = (o, w) ->
  let s1 := record (EvUrlretrieve (nightly_url d) (nightly_filename d)) w s in
  fetch_nightly env d a s =
  match o with
  | None => (Ok (Some (mkmeta (nightly_filename d) (Some d) "" a)), s1)
  | Some (HTTPError code) =>
      (Ok None,
       if code =? 404
       then record (EvStderr (not_available_message d)) (world s1) s1
       else s1)
  | Some e => (Raise e, s1)
  end.
Proof.
  intros H s1. unfold fetch_nightly, bind, try_except, urlretrieve, ret.
  fold (nightly_url d). fold (nightly_filename d). rewrite H.
  destruct o as [e|]; simpl.
  - destruct e; simpl; try reflexivity.
    unfold print_stderr. fold (not_available_message d).
    destruct (code =? 404); reflexivity.
  - reflexivity.
Qed.

Lemma download_nightly_for_range_app (l1 l2 : list datetime) (a : string) s :
  download_nightly_for_range env (l1 ++ l2) a s =
  match download_nightly_for_range env l1 a s with
  | (Ok r1, s1) =>
      match download_nightly_for_range env l2 a s1 with
      | (Ok r2, s2) => (Ok (r1 ++ r2)%list, s2)
      | (Raise e, s2) => (Raise e, s2)
      end
  | (Raise e, s1) => (Raise e, s1)
  end.
Proof.
  unfold download_nightly_for_range, bind, ret.
  rewrite comprehension_app.
  destruct (comprehension _ l1 s) as [[r1|e] s1]; [|reflexivity].
  destruct (comprehension _ l2 s1) as [[r2|e] s2]; [|reflexivity].
  now rewrite not_None_app.
Qed.

Lemma download_nightly_for_range_cons (d : datetime) (l : list datetime)
  (a : string) s :
  download_nightly_for_range env (d :: l) a s =
  match fetch_nightly env d a s with
  | (Ok o, s1) =>
      match download_nightly_for_range env l a s1 with
      | (Ok r, s2) =>
          (Ok (match o with Some m => m :: r | None => r end), s2)
      | (Raise e, s2) => (Raise e, s2)
      end
  | (Raise e, s1) => (Raise e, s1)
  end.
Proof.
  unfold download_nightly_for_range. simpl. unfold bind, ret.
  destruct (fetch_nightly env d a s) as [[o|e] s1]; [|reflexivity].
  destruct (comprehension _ l s1) as [[r|e] s2]; [|reflexivity].
  destruct o; reflexivity.
Qed.

(** A 404 in the middle of a list of dates: the date gives no descriptor
    and the dates after it are fetched from the state the 404 left. *)
Lemma download_nightly_for_range_skips (before after : list datetime)
  (d : datetime) (a : string) (s s1 : state W) (r1 : list apk_metadata) w :
  download_nightly_for_range env before a s = (Ok r1, s1) ->
  urlretrieve_outcome env (nightly_url d) (nightly_filename d) (world s1)
  = (Some (HTTPError 404), w) ->
  exists s2,
    fetch_nightly env d a s1 = (Ok None, s2)
    /\ download_nightly_for_range env (before ++ d :: after) a s =
       match download_nightly_for_range env after a s2 with
       | (Ok r2, s3) => (Ok (r1 ++ r2)%list, s3)
       | (Raise e, s3) => (Raise e, s3)
       end.
Proof.
  intros Hbefore H404.
  pose proof (fetch_nightly_cases d a s1 _ _ H404) as Hfetch.
  simpl in Hfetch.
  eexists. split; [exact Hfetch|].
  rewrite download_nightly_for_range_app, Hbefore.
  rewrite download_nightly_for_range_cons, Hfetch.
  destruct (download_nightly_for_range env after a _) as [[r2|e] s3];
    reflexivity.
Qed.

(** [main] in nightly mode, once the dates are known. *)
Lemma main_nightly (args : Args.t) (startdate : datetime)
  (dates : list datetime) (s : state W) :
  Args.build_source args = BUILD_SRC_TASKCLUSTER ->
  Args.startdate args = Some startdate ->
  get_date_array_for_range startdate (Args.enddate args) = Ok dates ->
  main env args s =
  match download_nightly_for_range env dates
          (arch_name (Args.architecture args)) s with
  | (Ok builds, s') => measure_and_cleanup env args builds s'
  | (Raise e, s') => (Raise e, s')
  end.
Proof.
  intros Hsrc Hstart Hdates.
  unfold main, validate_args. rewrite Hsrc, Hstart, Hdates.
  unfold bind at 1, lift at 1; cbn match.
  unfold bind at 1. unfold bind at 1, lift at 1.
  destruct (download_nightly_for_range env dates _ s) as [[builds|e] s'];
    reflexivity.
Qed.

(** C2. Take a run of [main] in nightly mode over the dates
    [before ++ d :: after], in which the dates before [d] have been
    fetched and the download for [d] answers 404.  Then [fetch_nightly]
    returns [None] for [d] (it does not raise);
    [download_nightly_for_range] returns the descriptors of the dates
    before [d] followed by those of the dates after it, which are fetched
    from the state the 404 left; and [main] goes on: once the dates after
    [d] are fetched, it runs the measurement loop (and the cleanup, if
    asked for) over those descriptors, so that a run that ends with an
    exception does so because of a later step, not of the 404. *)
Theorem download_nightly_skips_404 (args : Args.t) (startdate : datetime)
  (before after : list datetime) (d : datetime) (s s1 : state W)
  (r1 : list apk_metadata) w :
  let a := arch_name (Args.architecture args) in
  Args.build_source args = BUILD_SRC_TASKCLUSTER ->
  Args.startdate args = Some startdate ->
  get_date_array_for_range startdate (Args.enddate args)
  = Ok (before ++ d :: after)%list ->
  download_nightly_for_range env before a s = (Ok r1, s1) ->
  urlretrieve_outcome env (nightly_url d) (nightly_filename d) (world s1)
  = (Some (HTTPError 404), w) ->
  exists s2,
    fetch_nightly env d a s1 = (Ok None, s2)
    /\ download_nightly_for_range env (before ++ d :: after) a s =
       match download_nightly_for_range env after a s2 with
       | (Ok r2, s3) => (Ok (r1 ++ r2)%list, s3)
       | (Raise e, s3) => (Raise e, s3)
       end
    /\ main env args s =
       match download_nightly_for_range env after a s2 with
       | (Ok r2, s3) => measure_and_cleanup env args (r1 ++ r2)%list s3
       | (Raise e, s3) => (Raise e, s3)
       end.
Proof.
  intros a Hsrc Hstart Hdates Hbefore H404.
  destruct (download_nightly_for_range_skips before after d a s s1 r1 w
              Hbefore H404) as [s2 [Hfetch Hall]].
  exists s2. split; [exact Hfetch|]. split; [exact Hall|].
  rewrite (main_nightly args startdate _ s Hsrc Hstart Hdates).
  fold a. rewrite Hall.
  destruct (download_nightly_for_range env after a s2) as [[r2|e] s3];
    reflexivity.
Qed.

(** C3, as the code has it.  A download that fails with an HTTP error
    response, whatever its status, yields no descriptor and nothing is
    raised; the message on standard error is printed for 404 only.  A
    download failure that is not an HTTP error response is raised by
    [fetch_nightly] and by [download_nightly_for_range]. *)
Theorem fetch_nightly_download_failure (d : datetime) (rest : list datetime)
  (a : string) (s : state W) (e : exn) w :
  urlretrieve_outcome env (nightly_url d) (nightly_filename d) (world s)
  = (Some e, w) ->
  let s1 := record (EvUrlretrieve (nightly_url d) (nightly_filename d)) w s in
  match e with
  | HTTPError code =>
      fetch_nightly env d a s =
      (Ok None,
       if code =? 404
       then record (EvStderr (not_available_message d)) w s1
       else s1)
  | _ =>
      fetch_nightly env d a s = (Raise e, s1)
      /\ download_nightly_for_range env (d :: rest) a s = (Raise e, s1)
  end.
Proof.
  intros H s1.
  pose proof (fetch_nightly_cases d a s _ _ H) as Hfetch. simpl in Hfetch.
  destruct e; try (split; [exact Hfetch|];
                   rewrite download_nightly_for_range_cons, Hfetch;
                   reflexivity).
  exact Hfetch.
Qed.

(** C9. The request made for a date does not depend on the architecture:
    with either architecture the same URL, which names the armeabi-v7a
    artifact, is asked for with the same file name, the same state is left,
    and the results agree up to the architecture field of the descriptor,
    which holds the argument. *)
Theorem fetch_nightly_ignores_architecture (d : datetime) (a1 a2 : string)
  (s : state W) :
  nightly_url d =
    "https://firefox-ci-tc.services.mozilla.com/api/index/v1/task/mobile.v2.fenix.nightly."
    ++ DT.strftime_ymd d
    ++ ".latest.armeabi-v7a/artifacts/public%2Fbuild%2Farmeabi-v7a%2Ftarget.apk"
  /\ (exists rest,
        trace (snd (fetch_nightly env d a1 s)) =
        (trace s ++ EvUrlretrieve (nightly_url d) (nightly_filename d) :: rest)%list)
  /\ snd (fetch_nightly env d a1 s) = snd (fetch_nightly env d a2 s)
  /\ match fst (fetch_nightly env d a1 s), fst (fetch_nightly env d a2 s) with
     | Ok (Some m1), Ok (Some m2) =>
         KEY_NAME m1 = KEY_NAME m2
         /\ KEY_DATETIME m1 = KEY_DATETIME m2
         /\ KEY_COMMIT m1 = KEY_COMMIT m2
         /\ KEY_ARCHITECTURE m1 = a1 /\ KEY_ARCHITECTURE m2 = a2
     | Ok None, Ok None => True
     | Raise e1, Raise e2 => e1 = e2
     | _, _ => False
     end.
Proof.
  destruct (urlretrieve_outcome env (nightly_url d) (nightly_filename d)
              (world s)) as [o w] eqn:H.
  rewrite (fetch_nightly_cases d a1 s _ _ H).
  rewrite (fetch_nightly_cases d a2 s _ _ H).
  split; [reflexivity|].
  destruct o as [e|]; simpl.
  - destruct e; simpl;
      try (repeat split; try (exists []; reflexivity); reflexivity).
    destruct (code =? 404); simpl.
    + repeat split. eexists. rewrite <- app_assoc. reflexivity.
    + repeat split. exists []. reflexivity.
  - repeat split. exists []. reflexivity.
Qed.

End Nightly.

(* ===================================================================== *)
(** ** The measurement loop *)
(* ===================================================================== *)

Section Measurement.

Context {filetype measurements stats W : Type}.
Variable env : Environment filetype measurements stats W.



(** A failure whose error output is not UTF-8 cannot be reported: building
    the message raises, after the process has run. *)
Lemma install_apk_undecodable (apk_build_path : string) (s : state W) p w :
  run_outcome env ["adb"; "install"; apk_build_path] None (world s) = (Ok p, w) ->
  reportable p = false ->
  install_apk env apk_build_path s =
  (Raise UnicodeDecodeError,
   mkstate w (trace s ++ [EvRun ["adb"; "install"; apk_build_path] None])).
Proof.
  intros H Hp. unfold install_apk, bind, subprocess_run. rewrite H. simpl.
  unfold reportable in Hp. apply orb_false_iff in Hp. destruct Hp as [Hc Hu].
  rewrite Hc, Hu. reflexivity.
Qed.

(** [get_result_from_durations] when the durations file is missing. *)
Lemma get_result_from_durations_missing (durations analyzed : string)
  (s : state W) w :
  detect_filetype_outcome env durations (world s)
  = (Raise FileNotFoundError, w) ->
  get_result_from_durations env durations analyzed s =
  (Ok tt,
   mkstate w (trace s ++ [EvDetectFiletype durations;
                          EvStderr (missing_durations durations)])).
Proof.
  intros H.
  unfold get_result_from_durations, bind, try_except, detect_filetype.
  rewrite H. simpl. unfold record; simpl. now rewrite <- app_assoc.
Qed.

(** Everything [get_result_from_durations] does is to read the durations
    file and to save at the analysed path. *)
Lemma get_result_from_durations_events (durations analyzed : string)
  (s : state W) :
  exists evs,
    trace (snd (get_result_from_durations env durations analyzed s))
    = (trace s ++ evs)%list
    /\ Forall (reads_and_saves durations analyzed) evs.
Proof.
  unfold get_result_from_durations, bind, try_except, detect_filetype.
  destruct (detect_filetype_outcome env durations (world s)) as [[ft|e] w1].
  - simpl. unfold read_from; simpl.
    destruct (read_from_outcome env ft durations w1) as [[arr|e] w2]; simpl.
    + unfold to_stats, lift.
      destruct (to_stats_outcome env arr) as [st|e]; simpl.
      * unfold save_output; simpl.
        destruct (save_output_outcome env st analyzed w2) as [o w3]; simpl.
        exists [EvDetectFiletype durations; EvReadFrom durations;
                EvSaveOutput analyzed].
        split; [now rewrite <- !app_assoc|].
        repeat constructor.
      * exists [EvDetectFiletype durations; EvReadFrom durations].
        split; [now rewrite <- !app_assoc|]. repeat constructor.
    + exists [EvDetectFiletype durations; EvReadFrom durations].
      split; [now rewrite <- !app_assoc|]. repeat constructor.
  - destruct e; simpl;
      try (exists [EvDetectFiletype durations]; split;
           [reflexivity | repeat constructor]).
    exists [EvDetectFiletype durations; EvStderr (missing_durations durations)].
    split; [now rewrite <- !app_assoc|]. repeat constructor.
Qed.

(** When the whole chain succeeds the statistics are saved, last. *)
Lemma get_result_from_durations_saves (durations analyzed : string)
  (s : state W) ft arr st w1 w2 w3 :
  detect_filetype_outcome env durations (world s) = (Ok ft, w1) ->
  read_from_outcome env ft durations w1 = (Ok arr, w2) ->
  to_stats_outcome env arr = Ok st ->
  save_output_outcome env st analyzed w2 = (None, w3) ->
  get_result_from_durations env durations analyzed s =
  (Ok tt,
   mkstate w3 (trace s ++ [EvDetectFiletype durations; EvReadFrom durations;
                           EvSaveOutput analyzed])).
Proof.
  intros Hd Hr Ht Hs.
  unfold get_result_from_durations, bind, try_except, detect_filetype.
  rewrite Hd; simpl. unfold read_from; simpl. rewrite Hr; simpl.
  unfold to_stats, lift. rewrite Ht; simpl.
  unfold save_output; simpl. rewrite Hs; simpl.
  unfold record; simpl. now rewrite <- !app_assoc.
Qed.


(** *** Names of the output files *)

Lemma digit_char_is_digit (d : nat) :
  (d < 10)%nat -> Py.is_digit (Py.digit_char d) = true.
Proof.
  intros H.
  do 10 (destruct d as [|d]; [reflexivity|]). lia.
Qed.

Lemma str_of_nat_aux_head (fuel n : nat) (acc : string) :
  (n < fuel)%nat ->
  exists c r, Py.str_of_nat_aux fuel n acc = String c r
              /\ Py.is_digit c = true.
Proof.
  revert n acc. induction fuel as [|fuel IH]; intros n acc Hn; [lia|].
  cbn [Py.str_of_nat_aux]. destruct (Nat.eqb_spec (n / 10) 0) as [Hz|Hnz].
  - eexists _, _. split; [reflexivity|].
    apply digit_char_is_digit. apply Nat.mod_upper_bound. lia.
  - apply IH.
    assert (n / 10 < n)%nat; [|lia].
    apply Nat.div_lt; [|lia].
    destruct n; [exfalso; apply Hnz; reflexivity | lia].
Qed.

(** [str(n)] starts with a digit, so a file name that begins with the run
    number is never an absolute path. *)
Lemma str_of_nat_head (n : nat) :
  exists c r, Py.str_of_nat n = String c r /\ Py.is_digit c = true.
Proof. apply str_of_nat_aux_head. lia. Qed.

Lemma join_backfill_dir (n : nat) (tail : string) :
  Py.os_path_join BACKFILL_DIR [Py.str_of_nat n ++ tail] =
  "backfill_output/" ++ Py.str_of_nat n ++ tail.
Proof.
  destruct (str_of_nat_head n) as [c [r [-> Hc]]].
  unfold Py.os_path_join, Py.join2; simpl.
  destruct (Ascii.eqb_spec c "/") as [->|_]; [discriminate Hc | reflexivity].
Qed.

(** [s.split(sep)[0]] is the part of [s] before its first [sep], and all
    of [s] when there is none. *)
Lemma first_field_spec (sep : ascii) (s : string) :
  exists rest,
    s = Py.first_field sep s ++ rest
    /\ occurs sep (Py.first_field sep s) = false
    /\ (rest = "" \/ Py.startswith_char sep rest = true).
Proof.
  unfold Py.first_field. induction s as [|c s [rest [Hs [Hno Hrest]]]]; simpl.
  - exists "". auto.
  - destruct (Py.split_fields sep s) as [h t]; simpl in *.
    destruct (Ascii.eqb_spec c sep) as [->|Hne]; simpl.
    + exists (String sep s). repeat split.
      right. simpl. apply Ascii.eqb_refl.
    + exists rest. repeat split.
      * now rewrite <- Hs.
      * destruct (Ascii.eqb_spec c sep); [contradiction | exact Hno].
      * exact Hrest.
Qed.

(** A build that was installed is measured into [durations_path] and its
    results are read from there and saved at [analyzed_path]. *)
Lemma analyze_installed (idx : nat) (package_id script build_type : string)
  (apk : apk_metadata) (s s1 s2 s3 : state W) :
  uninstall_apk env package_id s = (Ok tt, s1) ->
  install_apk env (KEY_NAME apk) s1 = (Ok true, s2) ->
  mkdir env BACKFILL_DIR s2 = (Ok tt, s3) ->
  analyze env package_id script build_type idx apk s =
  (run_measure_start_up_script env script (durations_path idx apk) build_type ;;
   get_result_from_durations env (durations_path idx apk)
                             (analyzed_path idx apk)) s3.
Proof.
  intros Hu Hi Hm. unfold analyze, analyze_nightly_for_one_build.
  rewrite (bind_ok _ _ _ _ _ Hu), (bind_ok _ _ _ _ _ Hi).
  rewrite (bind_ok _ _ _ _ _ Hm).
  unfold DURATIONS_OUTPUT_FILE_TEMPLATE, ANALYZED_DURATIONS_FILE_TEMPLATE.
  rewrite !join_backfill_dir. reflexivity.
Qed.

Lemma run_measure_start_up_script_events (script path build_type : string)
  (s : state W) :
  trace (snd (run_measure_start_up_script env script path build_type s)) =
  (trace s ++ [EvRun [script; build_type; "cold_view_nav_start"; path] None])%list.
Proof.
  unfold run_measure_start_up_script, bind, subprocess_run.
  destruct (run_outcome env _ None (world s)) as [[p|e] w]; reflexivity.
Qed.


(** C6. Take a build that was installed and measured, but whose durations
    file does not exist when it is read.  [get_result_from_durations]
    prints its message and returns, with no statistics saved, so does the
    analysis of the build, and the loop goes on with the builds after
    it. *)
Theorem missing_output_skips_build (package_id script build_type : string)
  (before after : list apk_metadata) (apk : apk_metadata)
  (s0 s s1 s2 s3 s4 : state W) w5 :
  let body := analyze env package_id script build_type in
  let idx := List.length before in
  for_enumerate 0 before body s0 = (Ok tt, s) ->
  uninstall_apk env package_id s = (Ok tt, s1) ->
  install_apk env (KEY_NAME apk) s1 = (Ok true, s2) ->
  mkdir env BACKFILL_DIR s2 = (Ok tt, s3) ->
  run_measure_start_up_script env script (durations_path idx apk) build_type s3
  = (Ok tt, s4) ->
  detect_filetype_outcome env (durations_path idx apk) (world s4)
  = (Raise FileNotFoundError, w5) ->
  let s5 := mkstate w5
              (trace s4 ++ [EvDetectFiletype (durations_path idx apk);
                            EvStderr (missing_durations (durations_path idx apk))]) in
  get_result_from_durations env (durations_path idx apk)
                            (analyzed_path idx apk) s4 = (Ok tt, s5)
  /\ analyze_nightly_for_one_build env idx package_id script apk build_type s
     = (Ok tt, s5)
  /\ run_performance_analysis_on_nightly env package_id script
       (before ++ apk :: after) build_type s0
     = for_enumerate (S idx) after body s5.
Proof.
  intros body idx Hbefore Hu Hi Hm Hrun Hmissing s5.
  pose proof (get_result_from_durations_missing
                (durations_path idx apk) (analyzed_path idx apk) s4 w5
                Hmissing) as Hget.
  assert (Hone : body idx apk s = (Ok tt, s5)).
  { unfold body.
    rewrite (analyze_installed idx package_id script build_type apk
               s s1 s2 s3 Hu Hi Hm).
    rewrite (bind_ok _ _ _ _ _ Hrun). exact Hget. }
  repeat split.
  - exact Hget.
  - exact Hone.
  - unfold run_performance_analysis_on_nightly.
    exact (for_enumerate_step body before after apk s0 s s5 Hbefore Hone).
Qed.

(** C8. For a build that was installed, at index [idx] and with artifact
    name [N]: the directory made is [backfill_output]; the measuring script
    is run with [backfill_output/{idx}_durations_for_{B}.txt] as its output
    file; whatever follows only reads that file and saves at
    [backfill_output/{idx}_{B}_perf_results.txt], which it does when
    reading and aggregating succeed; [B] is [N] up to its first ['.']
    (all of [N] when it has none). *)
Theorem analyze_output_paths (idx : nat)
  (package_id script build_type : string) (apk : apk_metadata)
  (s s1 s2 s3 : state W) :
  uninstall_apk env package_id s = (Ok tt, s1) ->
  install_apk env (KEY_NAME apk) s1 = (Ok true, s2) ->
  mkdir env BACKFILL_DIR s2 = (Ok tt, s3) ->
  let B := Py.first_field "." (KEY_NAME apk) in
  let durations :=
    "backfill_output/" ++ Py.str_of_nat idx ++ "_durations_for_" ++ B ++ ".txt" in
  let analyzed :=
    "backfill_output/" ++ Py.str_of_nat idx ++ "_" ++ B ++ "_perf_results.txt" in
  (exists rest,
     KEY_NAME apk = B ++ rest
     /\ occurs "." B = false
     /\ (rest = "" \/ Py.startswith_char "." rest = true))
  /\ trace s3 = (trace s2 ++ [EvMkdir "backfill_output"])%list
  /\ (exists evs,
        trace (snd (analyze_nightly_for_one_build env idx package_id script
                      apk build_type s)) =
        (trace s3
         ++ EvRun [script; build_type; "cold_view_nav_start"; durations] None
         :: evs)%list
        /\ Forall (reads_and_saves durations analyzed) evs)
  /\ (forall pm w4 ft w5 arr w6 st w7,
        run_outcome env [script; build_type; "cold_view_nav_start"; durations]
                    None (world s3) = (Ok pm, w4) ->
        detect_filetype_outcome env durations w4 = (Ok ft, w5) ->
        read_from_outcome env ft durations w5 = (Ok arr, w6) ->
        to_stats_outcome env arr = Ok st ->
        save_output_outcome env st analyzed w6 = (None, w7) ->
        analyze_nightly_for_one_build env idx package_id script apk
          build_type s =
        (Ok tt,
         mkstate w7
           (trace s3
            ++ [EvRun [script; build_type; "cold_view_nav_start"; durations]
                      None;
                EvDetectFiletype durations; EvReadFrom durations;
                EvSaveOutput analyzed]))).
Proof.
  intros Hu Hi Hm B durations analyzed.
  pose proof (analyze_installed idx package_id script build_type apk
                s s1 s2 s3 Hu Hi Hm) as Han.
  unfold analyze in Han.
  change (durations_path idx apk) with durations in Han.
  change (analyzed_path idx apk) with analyzed in Han.
  split; [apply first_field_spec|].
  split.
  { unfold mkdir in Hm.
    destruct (mkdir_outcome env BACKFILL_DIR (world s2)) as [o w].
    injection Hm as _ <-. reflexivity. }
  split.
  - rewrite Han. unfold bind.
    pose proof (run_measure_start_up_script_events script durations
                  build_type s3) as Hrun.
    destruct (run_measure_start_up_script env script durations build_type s3)
      as [[[]|e] s4]; simpl in Hrun.
    + destruct (get_result_from_durations_events durations analyzed s4)
        as [evs [Hevs Hall]].
      exists evs. split; [|exact Hall].
      rewrite Hevs, Hrun, <- app_assoc. reflexivity.
    + exists []. split; [|constructor]. simpl. exact Hrun.
  - intros pm w4 ft w5 arr w6 st w7 Hrun Hd Hr Ht Hs.
    rewrite Han.
    assert (Hrun' : run_measure_start_up_script env script durations
                      build_type s3 =
                    (Ok tt,
                     mkstate w4
                       (trace s3
                        ++ [EvRun [script; build_type; "cold_view_nav_start";
                                   durations] None]))).
    { unfold run_measure_start_up_script, bind, subprocess_run.
      rewrite Hrun. reflexivity. }
    rewrite (bind_ok _ _ _ _ _ Hrun').
    rewrite (get_result_from_durations_saves durations analyzed
               (mkstate w4
                  (trace s3
                   ++ [EvRun [script; build_type; "cold_view_nav_start";
                              durations] None]))
               ft arr st w5 w6 w7 Hd Hr Ht Hs).
    cbn [trace]. rewrite <- app_assoc. reflexivity.
Qed.

End Measurement.

(* ===================================================================== *)
(** ** The commit path and the arguments *)
(* ===================================================================== *)

Section Commits.

Context {filetype measurements stats W : Type}.
Variable env : Environment filetype measurements stats W.

Lemma str_append_assoc (a b c : string) : (a ++ b) ++ c = a ++ (b ++ c).
Proof. induction a as [|x a IH]; simpl; [reflexivity | now rewrite IH]. Qed.

(** X20. [fetch_repository] fetches the remote named, and [upstream] when
    the name is empty.  After a zero exit status it returns having printed
    nothing; after a non-zero one it prints the error output of
    [git fetch] and returns, unless that output is not UTF-8: then
    decoding it raises UnicodeDecodeError and nothing is printed. *)
Theorem fetch_repository_cases (repository_path : option string)
  (remote_name : string) (s : state W) p w :
  let remote := if (String.length remote_name =? 0)%nat
                then "upstream" else remote_name in
  run_outcome env ["git"; "fetch"; remote] repository_path (world s)
  = (Ok p, w) ->
  let fetched := [EvRun ["git"; "fetch"; remote] repository_path] in
  fetch_repository env repository_path remote_name s =
  if raw_returncode p =? 0
  then (Ok tt, mkstate w (trace s ++ fetched))
  else if Py.utf8_valid (raw_stderr p)
  then (Ok tt,
        mkstate w
          (trace s ++ fetched
           ++ [EvStderr (fetch_failed repository_path (raw_stderr p))]))
  else (Raise UnicodeDecodeError, mkstate w (trace s ++ fetched)).
Proof.
  intros remote H fetched. unfold fetch_repository, bind, subprocess_run.
  fold remote. rewrite H. cbn [complete returncode stderr captured].
  destruct (raw_returncode p =? 0); cbn [negb].
  - reflexivity.
  - unfold lift, decode.
    destruct (Py.utf8_valid (raw_stderr p)); [|reflexivity].
    unfold print_stderr, record; cbn [trace world].
    now rewrite <- app_assoc.
Qed.

(** [git rev-list] that ends with a non-zero status: the message is never
    printed, because building it raises. *)
Lemma get_all_commits_rev_list_fails (start_commit end_commit : string)
  (repository_path : option string) (s : state W) p w :
  run_outcome env
    ["git"; "rev-list"; "--ancestry-path"; start_commit ++ "^.." ++ end_commit]
    repository_path (world s) = (Ok p, w) ->
  raw_returncode p <> 0 ->
  get_all_commits_in_commits_range env (Some start_commit) (Some end_commit)
    repository_path s =
  (Raise AttributeError,
   mkstate w
     (trace s ++ [EvRun ["git"; "rev-list"; "--ancestry-path";
                         start_commit ++ "^.." ++ end_commit]
                        repository_path])).
Proof.
  intros H Hfail.
  unfold get_all_commits_in_commits_range, bind, lift, str_add,
    subprocess_run.
  cbn match. rewrite str_append_assoc, H.
  cbn [complete returncode stderr captured].
  destruct (Z.eqb_spec (raw_returncode p) 0) as [|_]; [contradiction|].
  reflexivity.
Qed.

(** C7, where the code departs from it.  When [git rev-list] ends with a
    non-zero status, [get_all_commits_in_commits_range] prints nothing and
    raises AttributeError: the process was run with [text=True], its
    error output is a [str], and the message calls [decode] on it.  The
    exception leaves [build_apks_for_commits] too, whatever the fetch had
    printed before. *)
Theorem rev_list_failure_raises (start_commit end_commit : string)
  (repository_path : option string) (s : state W) p w :
  run_outcome env
    ["git"; "rev-list"; "--ancestry-path"; start_commit ++ "^.." ++ end_commit]
    repository_path (world s) = (Ok p, w) ->
  raw_returncode p <> 0 ->
  let s' :=
    mkstate w
      (trace s ++ [EvRun ["git"; "rev-list"; "--ancestry-path";
                          start_commit ++ "^.." ++ end_commit]
                         repository_path]) in
  get_all_commits_in_commits_range env (Some start_commit) (Some end_commit)
    repository_path s = (Raise AttributeError, s')
  /\ (forall build_type architecture remote_name s0,
        fetch_repository env repository_path remote_name s0 = (Ok tt, s) ->
        build_apks_for_commits env (Some start_commit) (Some end_commit)
          repository_path build_type architecture remote_name s0
        = (Raise AttributeError, s')).
Proof.
  intros H Hfail s'.
  pose proof (get_all_commits_rev_list_fails start_commit end_commit
                repository_path s p w H Hfail) as Hlist.
  split; [exact Hlist|].
  intros build_type architecture remote_name s0 Hf.
  unfold build_apks_for_commits.
  rewrite (bind_ok _ _ _ _ _ Hf), (bind_raise _ _ _ _ _ Hlist).
  reflexivity.
Qed.

(** X4. [validate_args] raises exactly in commit mode, when the
    repository path is missing or when both the start and the end commit
    are missing or empty; in nightly mode it accepts everything. *)
Lemma validate_args_ok_iff (args : Args.t) :
  validate_args args = Ok tt <->
  (Args.build_source args = BUILD_SRC_TASKCLUSTER
   \/ (Args.repository_to_test_path args <> None
       /\ (Py.truthy_opt (Args.startcommit args) = true
           \/ Py.truthy_opt (Args.endcommit args) = true))).
Proof.
  unfold validate_args.
  destruct (Args.build_source args); simpl.
  - split; auto.
  - destruct (Args.repository_to_test_path args) as [r|]; simpl.
    + destruct (Py.truthy_opt (Args.startcommit args)),
               (Py.truthy_opt (Args.endcommit args)); simpl;
        split; intros H; try reflexivity; try discriminate;
        try (right; split; [discriminate | auto]).
      destruct H as [H | [_ [H | H]]]; discriminate.
    + split; [discriminate|].
      intros [H | [H _]]; [discriminate | contradiction].
Qed.

(** C10. With an end date strictly before the start date the list of
    dates is empty, and [main] in nightly mode returns normally without
    any call to the outside: the state it leaves is the one it started
    from. *)
Theorem backwards_range_does_nothing (args : Args.t) (startdate : datetime)
  (s : state W) :
  Args.build_source args = BUILD_SRC_TASKCLUSTER ->
  Args.startdate args = Some startdate ->
  DT.total_us (Args.enddate args) < DT.total_us startdate ->
  get_date_array_for_range startdate (Args.enddate args) = Ok []
  /\ download_nightly_for_range env [] (arch_name (Args.architecture args)) s
     = (Ok [], s)
  /\ main env args s = (Ok tt, s).
Proof.
  intros Hsrc Hstart Hlt.
  pose proof (get_date_array_for_range_backwards _ _ Hlt) as Hempty.
  split; [exact Hempty|]. split; [reflexivity|].
  unfold main, validate_args. rewrite Hsrc, Hstart, Hempty.
  destruct (Args.cleanup args); reflexivity.
Qed.

End Commits.

(* ===================================================================== *)
(** ** The theorems at work on concrete runs *)
(* ===================================================================== *)

Lemma download_nightly_skips_404_witness :
  let env := Demo.missing_jan2 in
  let args := Demo.nightly_args (Demo.jan 1) (Demo.jan 3) in
  exists s2,
    fetch_nightly env (Demo.jan 2) Demo.v7a
      (snd (download_nightly_for_range env [Demo.jan 1] Demo.v7a Demo.start))
    = (Ok None, s2)
    /\ download_nightly_for_range env
         ([Demo.jan 1] ++ Demo.jan 2 :: [Demo.jan 3]) Demo.v7a Demo.start =
       match download_nightly_for_range env [Demo.jan 3] Demo.v7a s2 with
       | (Ok r2, s3) => (Ok ([Demo.build 1] ++ r2)%list, s3)
       | (Raise e, s3) => (Raise e, s3)
       end
    /\ main env args Demo.start =
       match download_nightly_for_range env [Demo.jan 3] Demo.v7a s2 with
       | (Ok r2, s3) =>
           measure_and_cleanup env args ([Demo.build 1] ++ r2)%list s3
       | (Raise e, s3) => (Raise e, s3)
       end.
Proof.
  intros env args.
  apply (download_nightly_skips_404 env args (Demo.jan 1)
           [Demo.jan 1] [Demo.jan 3] (Demo.jan 2) Demo.start
           (snd (download_nightly_for_range env [Demo.jan 1]
                   Demo.v7a Demo.start))
           [Demo.build 1] 2%nat).
  - reflexivity.
  - reflexivity.
  - vm_compute. reflexivity.
  - vm_compute. reflexivity.
  - vm_compute. reflexivity.
Defined.

(** The whole run over 2021-01-01 .. 2021-01-03 when the second nightly
    is missing: it ends normally, having measured the first and the third. *)
Example main_continues_after_404 :
  let run := main Demo.missing_jan2
               (Demo.nightly_args (Demo.jan 1) (Demo.jan 3)) Demo.start in
  fst run = Ok tt
  /\ installs (trace (snd run))
     = ["nightly_2021_01_01.apk"; "nightly_2021_01_03.apk"].
Proof. split; vm_compute; reflexivity. Qed.

(** C3, as the claim has it, fails: a 500 answer for 2021-01-02 is a
    download failure other than not-found, yet [fetch_nightly] returns
    [None] without raising and without a word on standard error, and the
    range is downloaded as if that day had no nightly. *)
Lemma fetch_nightly_swallows_http_500 :
  urlretrieve_outcome Demo.broken_jan2 (nightly_url (Demo.jan 2))
    (nightly_filename (Demo.jan 2)) (world Demo.start)
  = (Some (HTTPError 500), 1%nat)
  /\ fetch_nightly Demo.broken_jan2 (Demo.jan 2) Demo.v7a Demo.start
     = (Ok None,
        mkstate 1%nat [EvUrlretrieve (nightly_url (Demo.jan 2))
                                     (nightly_filename (Demo.jan 2))])
  /\ fst (download_nightly_for_range Demo.broken_jan2
            [Demo.jan 1; Demo.jan 2; Demo.jan 3] Demo.v7a Demo.start)
     = Ok [Demo.build 1; Demo.build 3].
Proof. repeat split; vm_compute; reflexivity. Qed.

Lemma fetch_nightly_download_failure_witness :
  fetch_nightly Demo.offline (Demo.jan 1) Demo.v7a Demo.start =
  (Raise URLError,
   record (EvUrlretrieve (nightly_url (Demo.jan 1))
                         (nightly_filename (Demo.jan 1))) 1%nat Demo.start)
  /\ download_nightly_for_range Demo.offline (Demo.jan 1 :: [Demo.jan 2])
       Demo.v7a Demo.start =
     (Raise URLError,
      record (EvUrlretrieve (nightly_url (Demo.jan 1))
                            (nightly_filename (Demo.jan 1))) 1%nat Demo.start).
Proof.
  apply (fetch_nightly_download_failure Demo.offline (Demo.jan 1)
           [Demo.jan 2] Demo.v7a Demo.start URLError 1%nat).
  vm_compute. reflexivity.
Defined.



Lemma missing_output_skips_build_witness :
  let env := Demo.picky_device in
  let path := durations_path 2 (Demo.build 3) in
  let s4 := Demo.measured env path (Demo.build 3) (Demo.analysed env 2) in
  let s5 := mkstate 14%nat
              (trace s4 ++ [EvDetectFiletype path;
                            EvStderr (missing_durations path)]) in
  get_result_from_durations env path (analyzed_path 2 (Demo.build 3)) s4
  = (Ok tt, s5)
  /\ analyze_nightly_for_one_build env 2 Demo.pkg Demo.script (Demo.build 3)
       Demo.bt (Demo.analysed env 2) = (Ok tt, s5)
  /\ run_performance_analysis_on_nightly env Demo.pkg Demo.script
       ([Demo.build 1; Demo.build 2] ++ Demo.build 3 :: []) Demo.bt Demo.start
     = for_enumerate 3 [] (analyze env Demo.pkg Demo.script Demo.bt) s5.
Proof.
  intros env path s4 s5.
  refine (missing_output_skips_build env Demo.pkg Demo.script Demo.bt
            [Demo.build 1; Demo.build 2] [] (Demo.build 3) Demo.start
            (Demo.analysed env 2)
            (Demo.uninstalled env (Demo.analysed env 2))
            (Demo.installed env (Demo.build 3) (Demo.analysed env 2))
            (Demo.prepared env (Demo.build 3) (Demo.analysed env 2))
            s4 14%nat _ _ _ _ _ _).
  - vm_compute. reflexivity.
  - vm_compute. reflexivity.
  - vm_compute. reflexivity.
  - vm_compute. reflexivity.
  - vm_compute. reflexivity.
  - vm_compute. reflexivity.
Defined.

Lemma rev_list_failure_raises_witness :
  let s' :=
    mkstate 1%nat
      (trace Demo.start
       ++ [EvRun ["git"; "rev-list"; "--ancestry-path"; "a" ++ "^.." ++ "b"]
                 (Some "/r")]) in
  get_all_commits_in_commits_range Demo.unknown_commit (Some "a") (Some "b")
    (Some "/r") Demo.start = (Raise AttributeError, s')
  /\ (forall build_type architecture remote_name s0,
        fetch_repository Demo.unknown_commit (Some "/r") remote_name s0
        = (Ok tt, Demo.start) ->
        build_apks_for_commits Demo.unknown_commit (Some "a") (Some "b")
          (Some "/r") build_type architecture remote_name s0
        = (Raise AttributeError, s')).
Proof.
  apply (rev_list_failure_raises Demo.unknown_commit "a" "b" (Some "/r")
           Demo.start (mkraw 128 "" "fatal: bad revision") 1%nat).
  - vm_compute. reflexivity.
  - simpl. lia.
Defined.

(** The whole run on that repository: the fetch, the listing, and then
    the exception, with no build measured. *)
Lemma main_aborts_on_rev_list_failure :
  main Demo.unknown_commit
       (Demo.commit_args (Some "a") (Some "b") (Some "/r")) Demo.start =
  (Raise AttributeError,
   mkstate 2%nat
     [EvRun ["git"; "fetch"; "upstream"] (Some "/r");
      EvRun ["git"; "rev-list"; "--ancestry-path"; "a^..b"] (Some "/r")]).
Proof. vm_compute. reflexivity. Qed.

(** C4, where the code departs from it.  In commit mode with a
    repository path and only one of the two commits, [validate_args]
    raises nothing; [main] then runs [git fetch] and ends with the
    TypeError of concatenating [None] into the commit range. *)
Theorem validate_args_accepts_one_missing_commit :
  validate_args (Demo.commit_args None (Some "b") (Some "/r")) = Ok tt
  /\ validate_args (Demo.commit_args (Some "a") None (Some "/r")) = Ok tt
  /\ main Demo.good_repo (Demo.commit_args None (Some "b") (Some "/r"))
          Demo.start
     = (Raise TypeError,
        mkstate 1%nat [EvRun ["git"; "fetch"; "upstream"] (Some "/r")])
  /\ main Demo.good_repo (Demo.commit_args (Some "a") None (Some "/r"))
          Demo.start
     = (Raise TypeError,
        mkstate 1%nat [EvRun ["git"; "fetch"; "upstream"] (Some "/r")]).
Proof. repeat split; vm_compute; reflexivity. Qed.

Lemma analyze_output_paths_witness :
  let env := Demo.missing_jan2 in
  let apk := Demo.build 1 in
  let s2 := Demo.installed env apk Demo.start in
  let s3 := Demo.prepared env apk Demo.start in
  let B := Py.first_field "." (KEY_NAME apk) in
  let durations :=
    "backfill_output/" ++ Py.str_of_nat 0 ++ "_durations_for_" ++ B ++ ".txt" in
  let analyzed :=
    "backfill_output/" ++ Py.str_of_nat 0 ++ "_" ++ B ++ "_perf_results.txt" in
  (exists rest,
     KEY_NAME apk = B ++ rest
     /\ occurs "." B = false
     /\ (rest = "" \/ Py.startswith_char "." rest = true))
  /\ trace s3 = (trace s2 ++ [EvMkdir "backfill_output"])%list
  /\ (exists evs,
        trace (snd (analyze_nightly_for_one_build env 0 Demo.pkg Demo.script
                      apk Demo.bt Demo.start)) =
        (trace s3
         ++ EvRun [Demo.script; Demo.bt; "cold_view_nav_start"; durations] None
         :: evs)%list
        /\ Forall (reads_and_saves durations analyzed) evs)
  /\ (forall pm w4 ft w5 arr w6 st w7,
        run_outcome env [Demo.script; Demo.bt; "cold_view_nav_start"; durations]
                    None (world s3) = (Ok pm, w4) ->
        detect_filetype_outcome env durations w4 = (Ok ft, w5) ->
        read_from_outcome env ft durations w5 = (Ok arr, w6) ->
        to_stats_outcome env arr = Ok st ->
        save_output_outcome env st analyzed w6 = (None, w7) ->
        analyze_nightly_for_one_build env 0 Demo.pkg Demo.script apk
          Demo.bt Demo.start =
        (Ok tt,
         mkstate w7
           (trace s3
            ++ [EvRun [Demo.script; Demo.bt; "cold_view_nav_start"; durations]
                      None;
                EvDetectFiletype durations; EvReadFrom durations;
                EvSaveOutput analyzed]))).
Proof.
  intros env apk s2 s3.
  refine (analyze_output_paths env 0 Demo.pkg Demo.script Demo.bt apk
            Demo.start (Demo.uninstalled env Demo.start) s2 s3 _ _ _).
  - vm_compute. reflexivity.
  - vm_compute. reflexivity.
  - vm_compute. reflexivity.
Defined.

(** The names of that run, spelled out. *)
Example first_nightly_paths :
  durations_path 0 (Demo.build 1)
  = "backfill_output/0_durations_for_nightly_2021_01_01.txt"
  /\ analyzed_path 0 (Demo.build 1)
     = "backfill_output/0_nightly_2021_01_01_perf_results.txt"
  /\ durations_path 12 (mkmeta "apk_commit_1f3a.b.apk" None "1f3a.b" Demo.v7a)
     = "backfill_output/12_durations_for_apk_commit_1f3a.txt".
Proof. repeat split; vm_compute; reflexivity. Qed.

Lemma backwards_range_does_nothing_witness :
  let args := Demo.nightly_args (Demo.jan 3) (Demo.jan 1) in
  get_date_array_for_range (Demo.jan 3) (Args.enddate args) = Ok []
  /\ download_nightly_for_range Demo.missing_jan2 []
       (arch_name (Args.architecture args)) Demo.start
     = (Ok [], Demo.start)
  /\ main Demo.missing_jan2 args Demo.start = (Ok tt, Demo.start).
Proof.
  intros args.
  apply (backwards_range_does_nothing Demo.missing_jan2 args (Demo.jan 3)
           Demo.start).
  - reflexivity.
  - reflexivity.
  - unfold DT.total_us, DT.US_PER_DAY; simpl; lia.
Defined.

(* ===================================================================== *)
(** ** Further properties: dates and arguments *)
(* ===================================================================== *)

Lemma days_times_day (t : timedelta) :
  DT.days t * DT.US_PER_DAY <= td_us t.
Proof.
  unfold DT.days. rewrite Z.mul_comm.
  apply Z.mul_div_le. unfold DT.US_PER_DAY. lia.
Qed.

(** X1. For any two valid datetimes, in whatever order,
    [get_date_array_for_range] returns a list (it never raises
    OverflowError), and every entry is a valid datetime with the start's
    time of day, not before the start and not after the end. *)
Theorem get_date_array_for_range_within (startdate enddate : datetime) :
  DT.valid startdate -> DT.valid enddate ->
  exists l,
    get_date_array_for_range startdate enddate = Ok l
    /\ Forall (fun x => DT.valid x
                        /\ usec x = usec startdate
                        /\ DT.total_us startdate <= DT.total_us x
                           <= DT.total_us enddate) l.
Proof.
  intros [Hso Hsu] [Heo Heu].
  pose proof (days_times_day (DT.sub enddate startdate)) as Hd.
  unfold DT.sub in Hd; cbn [td_us] in Hd.
  assert (Hin : forall i,
             In i (Py.range (DT.days (DT.sub enddate startdate) + 1)) ->
             0 <= i /\ ordinal startdate + i <= ordinal enddate
             /\ DT.total_us startdate + i * DT.US_PER_DAY
                <= DT.total_us enddate).
  { intros i Hi. apply in_range in Hi.
    unfold DT.sub in Hi; cbn [td_us] in Hi.
    set (d := DT.days (mktimedelta (DT.total_us enddate
                                    - DT.total_us startdate))) in *.
    assert (Hle : i * DT.US_PER_DAY <= d * DT.US_PER_DAY)
      by (unfold DT.US_PER_DAY; nia).
    assert (Htot : DT.total_us startdate + i * DT.US_PER_DAY
                   <= DT.total_us enddate) by lia.
    repeat split; [lia | | exact Htot].
    unfold DT.total_us, DT.US_PER_DAY in *. nia. }
  eexists. split.
  - unfold get_date_array_for_range.
    apply map_result_pointwise
      with (g := fun i => mkdatetime (ordinal startdate + i) (usec startdate)).
    intros i Hi. destruct (Hin i Hi) as [H0 [Hord _]].
    apply add_days; [assumption | lia].
  - apply Forall_forall. intros x Hx. apply in_map_iff in Hx.
    destruct Hx as [i [<- Hi]]. destruct (Hin i Hi) as [H0 [Hord Htot]].
    unfold DT.valid; cbn [ordinal usec].
    repeat split; try lia.
    + unfold DT.total_us; cbn [ordinal usec]. unfold DT.US_PER_DAY. nia.
    + unfold DT.total_us in *; cbn [ordinal usec]. lia.
Qed.

Lemma get_date_array_for_range_within_witness :
  exists l,
    get_date_array_for_range (mkdatetime 737793 5) (Demo.jan 1) = Ok l
    /\ Forall (fun x => DT.valid x
                        /\ usec x = usec (mkdatetime 737793 5)
                        /\ DT.total_us (mkdatetime 737793 5) <= DT.total_us x
                           <= DT.total_us (Demo.jan 1)) l.
Proof.
  apply (get_date_array_for_range_within (mkdatetime 737793 5) (Demo.jan 1)).
  - unfold DT.valid, DT.MAXORDINAL, DT.US_PER_DAY; simpl; lia.
  - unfold DT.valid, DT.MAXORDINAL, DT.US_PER_DAY; simpl; lia.
Defined.

Section Arguments.

Context {filetype measurements stats W : Type}.
Variable env : Environment filetype measurements stats W.

(** X2. When [validate_args] raises, [main] ends with that exception
    before any call to the outside: the state is the one it started
    from. *)
Theorem main_stops_at_validation (args : Args.t) (e : exn) (s : state W) :
  validate_args args = Raise e ->
  main env args s = (Raise e, s).
Proof.
  intros H. unfold main, bind, lift. rewrite H. reflexivity.
Qed.

(** X3. In nightly mode without [--startdate], nothing is checked by
    [validate_args]; [main] ends with the TypeError of subtracting [None]
    from the end date, before any call to the outside. *)
Theorem main_without_startdate (args : Args.t) (s : state W) :
  Args.build_source args = BUILD_SRC_TASKCLUSTER ->
  Args.startdate args = None ->
  validate_args args = Ok tt
  /\ main env args s = (Raise TypeError, s).
Proof.
  intros Hsrc Hstart. unfold main, validate_args. rewrite Hsrc, Hstart.
  split; reflexivity.
Qed.

End Arguments.

(* ===================================================================== *)
(** ** Further properties: the nightly path *)
(* ===================================================================== *)

Lemma requests_app (t1 t2 : list event) :
  requests (t1 ++ t2) = (requests t1 ++ requests t2)%list.
Proof. unfold requests. apply flat_map_app. Qed.

Lemma occurs_app (c : ascii) (a b : string) :
  occurs c (a ++ b) = occurs c a || occurs c b.
Proof.
  induction a as [|x a IH]; simpl; [reflexivity|].
  rewrite IH. now rewrite orb_assoc.
Qed.

Lemma occurs_replace_char (a b : ascii) (s : string) :
  a <> b -> occurs a (Py.replace_char a b s) = false.
Proof.
  intros Hab. induction s as [|x s IH]; simpl; [reflexivity|].
  rewrite IH, orb_false_r.
  destruct (Ascii.eqb_spec x a) as [->|Hx].
  - apply Ascii.eqb_neq. congruence.
  - apply Ascii.eqb_neq. exact Hx.
Qed.

(** The first field of a string whose first separator comes after
    [stem]. *)
Lemma first_field_app (sep : ascii) (stem rest : string) :
  occurs sep stem = false ->
  Py.first_field sep (stem ++ String sep rest) = stem.
Proof.
  unfold Py.first_field. induction stem as [|x stem IH]; simpl; intros H.
  - destruct (Py.split_fields sep rest). now rewrite Ascii.eqb_refl.
  - apply orb_false_iff in H. destruct H as [Hx Hstem].
    specialize (IH Hstem).
    destruct (Py.split_fields sep (stem ++ String sep rest)) as [h t].
    simpl in IH. rewrite Hx. simpl. now rewrite IH.
Qed.

Section NightlyMore.

Context {filetype measurements stats W : Type}.
Variable env : Environment filetype measurements stats W.

(** What one [fetch_nightly] that returns adds to the downloads asked
    for, and what it returns. *)
Lemma fetch_nightly_returns (d : datetime) (a : string) (s s1 : state W) o :
  fetch_nightly env d a s = (Ok o, s1) ->
  requests (trace s1)
  = (requests (trace s) ++ [(nightly_url d, nightly_filename d)])%list
  /\ (o = None \/ o = Some (nightly_descriptor d a)).
Proof.
  destruct (urlretrieve_outcome env (nightly_url d) (nightly_filename d)
              (world s)) as [out w] eqn:Hout.
  rewrite (fetch_nightly_cases env d a s _ _ Hout).
  destruct out as [e|].
  - destruct e; try discriminate.
    intros H. injection H as <- <-. split; [|left; reflexivity].
    destruct (code =? 404); unfold record; cbn [trace];
      rewrite ?requests_app; simpl; now rewrite ?app_nil_r.
  - intros H. injection H as <- <-. split; [|right; reflexivity].
    unfold record; cbn [trace]. now rewrite requests_app.
Qed.

(** X5. When [download_nightly_for_range] returns, it has asked for
    exactly one download per date of the list, in the order of the list,
    each with the URL and the file name of its date. *)
Theorem download_requests_each_date (dates : list datetime) (a : string)
  (s s' : state W) (r : list apk_metadata) :
  download_nightly_for_range env dates a s = (Ok r, s') ->
  requests (trace s')
  = (requests (trace s)
     ++ map (fun d => (nightly_url d, nightly_filename d)) dates)%list.
Proof.
  revert s r. induction dates as [|d dates IH]; intros s r H.
  - unfold download_nightly_for_range, bind, ret in H; simpl in H.
    injection H as _ <-. now rewrite app_nil_r.
  - rewrite download_nightly_for_range_cons in H.
    destruct (fetch_nightly env d a s) as [[o|e] s1] eqn:Hf; [|discriminate].
    destruct (download_nightly_for_range env dates a s1) as [[r'|e] s2] eqn:Hd;
      [|discriminate].
    injection H as _ <-.
    rewrite (IH _ _ Hd).
    destruct (fetch_nightly_returns d a s s1 o Hf) as [-> _].
    now rewrite <- app_assoc.
Qed.

(** X6. The descriptors [download_nightly_for_range] returns are those of
    some of the dates of the list, in the order of the list: each has the
    file name of its date, that date, no commit, and the architecture
    given. *)
Theorem download_descriptors_in_order (dates : list datetime) (a : string)
  (s s' : state W) (r : list apk_metadata) :
  download_nightly_for_range env dates a s = (Ok r, s') ->
  exists kept,
    subseq kept dates
    /\ r = map (fun d => nightly_descriptor d a) kept.
Proof.
  revert s r. induction dates as [|d dates IH]; intros s r H.
  - unfold download_nightly_for_range, bind, ret in H; simpl in H.
    injection H as <- _. exists []. split; [constructor | reflexivity].
  - rewrite download_nightly_for_range_cons in H.
    destruct (fetch_nightly env d a s) as [[o|e] s1] eqn:Hf; [|discriminate].
    destruct (download_nightly_for_range env dates a s1) as [[r'|e] s2] eqn:Hd;
      [|discriminate].
    injection H as <- <-.
    destruct (IH _ _ Hd) as [kept [Hsub ->]].
    destruct (fetch_nightly_returns d a s s1 o Hf) as [_ [-> | ->]].
    + exists kept. split; [now constructor | reflexivity].
    + exists (d :: kept). split; [now constructor | reflexivity].
Qed.

End NightlyMore.

(** X7. The file name of a nightly is ["nightly_"], the date with ['_']
    for ['.'], and [".apk"]; its only ['.'] is that of the extension, so
    the name the output files of [analyze_nightly_for_one_build] carry is
    the whole file name without [".apk"]. *)
Theorem nightly_output_names (d : datetime) (a : string) (idx : nat) :
  let stem := "nightly_" ++ Py.replace_char "." "_" (DT.strftime_ymd d) in
  KEY_NAME (nightly_descriptor d a) = stem ++ ".apk"
  /\ occurs "." stem = false
  /\ durations_path idx (nightly_descriptor d a)
     = "backfill_output/" ++ Py.str_of_nat idx ++ "_durations_for_" ++ stem
       ++ ".txt"
  /\ analyzed_path idx (nightly_descriptor d a)
     = "backfill_output/" ++ Py.str_of_nat idx ++ "_" ++ stem
       ++ "_perf_results.txt".
Proof.
  intros stem.
  assert (Hname : nightly_filename d = stem ++ ".apk").
  { unfold nightly_filename, stem. now rewrite str_append_assoc. }
  assert (Hno : occurs "." stem = false).
  { unfold stem. rewrite occurs_app, occurs_replace_char by discriminate.
    reflexivity. }
  assert (Hfirst : Py.first_field "." (nightly_filename d) = stem).
  { rewrite Hname. apply (first_field_app "." stem "apk" Hno). }
  unfold durations_path, analyzed_path; cbn [KEY_NAME nightly_descriptor].
  rewrite Hfirst. repeat split; assumption.
Qed.

(* ===================================================================== *)
(** ** Further properties: the names of the output files *)
(* ===================================================================== *)

Lemma str_append_nil_r (a : string) : a ++ "" = a.
Proof. induction a as [|x a IH]; simpl; [reflexivity | now rewrite IH]. Qed.

Lemma str_append_inv_l (a x y : string) : a ++ x = a ++ y -> x = y.
Proof.
  induction a as [|c a IH]; simpl; intros H; [exact H|].
  injection H as H. auto.
Qed.

Lemma str_length_append (a b : string) :
  String.length (a ++ b) = (String.length a + String.length b)%nat.
Proof. induction a as [|x a IH]; simpl; [reflexivity | now rewrite IH]. Qed.

Lemma all_digits_app (a b : string) :
  all_digits (a ++ b) = all_digits a && all_digits b.
Proof.
  induction a as [|x a IH]; simpl; [reflexivity|].
  rewrite IH. now rewrite andb_assoc.
Qed.

Lemma int_of_digits_app (acc : nat) (a b : string) :
  int_of_digits acc (a ++ b) = int_of_digits (int_of_digits acc a) b.
Proof.
  revert acc. induction a as [|x a IH]; intros acc; simpl;
    [reflexivity | apply IH].
Qed.

Lemma digit_char_value (d : nat) :
  (d < 10)%nat -> (nat_of_ascii (Py.digit_char d) - 48)%nat = d.
Proof.
  intros H. do 10 (destruct d as [|d]; [reflexivity|]). lia.
Qed.

(** The digits [str_of_nat_aux] puts before [acc]: they read back as
    [n]. *)
Lemma str_of_nat_aux_digits (fuel n : nat) (acc : string) :
  (n < fuel)%nat ->
  exists ds,
    Py.str_of_nat_aux fuel n acc = ds ++ acc
    /\ all_digits ds = true
    /\ int_of_digits 0 ds = n.
Proof.
  revert n acc. induction fuel as [|fuel IH]; intros n acc Hn; [lia|].
  cbn [Py.str_of_nat_aux].
  assert (Hmod : (n mod 10 < 10)%nat) by (apply Nat.mod_upper_bound; lia).
  destruct (Nat.eqb_spec (n / 10) 0) as [Hz|Hnz].
  - exists (String (Py.digit_char (n mod 10)) "").
    split; [reflexivity|]. split.
    + cbn [all_digits]. now rewrite digit_char_is_digit.
    + cbn [int_of_digits]. rewrite digit_char_value by exact Hmod.
      pose proof (Nat.div_mod_eq n 10). lia.
  - assert (Hlt : (n / 10 < fuel)%nat).
    { assert (n / 10 < n)%nat; [|lia].
      apply Nat.div_lt; [|lia].
      destruct n; [exfalso; apply Hnz; reflexivity | lia]. }
    destruct (IH (n / 10)%nat (String (Py.digit_char (n mod 10)) acc) Hlt)
      as [ds [Heq [Hall Hval]]].
    exists (ds ++ String (Py.digit_char (n mod 10)) "").
    split; [|split].
    + rewrite Heq, str_append_assoc. reflexivity.
    + rewrite all_digits_app, Hall. cbn [all_digits].
      now rewrite digit_char_is_digit.
    + rewrite int_of_digits_app, Hval. cbn [int_of_digits].
      rewrite digit_char_value by exact Hmod.
      pose proof (Nat.div_mod_eq n 10). lia.
Qed.

Lemma str_of_nat_digits (n : nat) :
  all_digits (Py.str_of_nat n) = true
  /\ int_of_digits 0 (Py.str_of_nat n) = n.
Proof.
  destruct (str_of_nat_aux_digits (S n) n "" ltac:(lia)) as [ds [Heq H]].
  unfold Py.str_of_nat. rewrite Heq, str_append_nil_r. exact H.
Qed.

(** Two runs of digits, each followed by a character that is no digit:
    equal texts have equal runs. *)
Lemma digits_prefix_unique (d1 d2 : string) (c1 c2 : ascii) (r1 r2 : string) :
  all_digits d1 = true -> all_digits d2 = true ->
  Py.is_digit c1 = false -> Py.is_digit c2 = false ->
  d1 ++ String c1 r1 = d2 ++ String c2 r2 ->
  d1 = d2.
Proof.
  revert d2. induction d1 as [|x d1 IH]; intros [|y d2] H1 H2 Hc1 Hc2 H;
    simpl in *.
  - reflexivity.
  - injection H as -> _. apply andb_true_iff in H2. destruct H2 as [H2 _].
    congruence.
  - injection H as -> _. apply andb_true_iff in H1. destruct H1 as [H1 _].
    congruence.
  - injection H as -> H.
    apply andb_true_iff in H1. apply andb_true_iff in H2.
    f_equal. apply IH; tauto.
Qed.

(** The run number can be read off a file name that starts with it. *)
Lemma run_number_unique (i j : nat) (r1 r2 : string) :
  "backfill_output/" ++ Py.str_of_nat i ++ String "_" r1
  = "backfill_output/" ++ Py.str_of_nat j ++ String "_" r2 ->
  i = j.
Proof.
  intros H. apply str_append_inv_l in H.
  destruct (str_of_nat_digits i) as [Hi Hvi].
  destruct (str_of_nat_digits j) as [Hj Hvj].
  apply digits_prefix_unique in H; try assumption; try reflexivity.
  congruence.
Qed.

(** X8. No two output files of a run coincide: a file of the build at
    index [i] (durations or statistics) is a file of the build at index
    [j] only when [i = j], whatever the artifacts are called, and the
    statistics file of a build is never its durations file. *)
Theorem output_paths_distinct (i j : nat) (a b : apk_metadata) :
  (durations_path i a = durations_path j b -> i = j)
  /\ (analyzed_path i a = analyzed_path j b -> i = j)
  /\ (durations_path i a = analyzed_path j b -> i = j)
  /\ durations_path i a <> analyzed_path i a.
Proof.
  unfold durations_path, analyzed_path.
  split; [|split; [|split]].
  - apply run_number_unique.
  - apply run_number_unique.
  - apply run_number_unique.
  - intros H. apply (f_equal String.length) in H.
    rewrite !str_length_append in H. simpl in H. lia.
Qed.

(* ===================================================================== *)
(** ** Further properties: the measurement loop *)
(* ===================================================================== *)

Lemma installs_app (t1 t2 : list event) :
  installs (t1 ++ t2) = (installs t1 ++ installs t2)%list.
Proof. unfold installs. apply flat_map_app. Qed.

Lemma reads_and_saves_no_install (durations analyzed : string)
  (evs : list event) :
  Forall (reads_and_saves durations analyzed) evs -> installs evs = [].
Proof.
  induction 1 as [|ev evs Hev _ IH]; [reflexivity|].
  destruct ev; simpl in Hev; try contradiction; exact IH.
Qed.

(** A loop whose body raises at some element ends there, with the
    exception. *)
Lemma for_enumerate_raises {W A : Type} (body : nat -> A -> M W unit)
  (l1 l2 : list A) (x : A) s0 s s' e :
  for_enumerate 0 l1 body s0 = (Ok tt, s) ->
  body (List.length l1) x s = (Raise e, s') ->
  for_enumerate 0 (l1 ++ x :: l2) body s0 = (Raise e, s').
Proof.
  intros H1 Hx. rewrite (for_enumerate_app _ _ _ _ _ _ H1). simpl.
  now rewrite (bind_raise _ _ _ _ _ Hx).
Qed.

Section MeasurementMore.

Context {filetype measurements stats W : Type}.
Variable env : Environment filetype measurements stats W.

Lemma uninstall_apk_installs (package_id : string) (s s1 : state W) r :
  uninstall_apk env package_id s = (r, s1) ->
  installs (trace s1) = installs (trace s).
Proof.
  unfold uninstall_apk, bind, subprocess_run.
  destruct (run_outcome env _ None (world s)) as [[p|e] w];
    cbn [complete returncode stderr captured].
  - destruct (raw_returncode p =? 0); cbn [negb];
      unfold lift, decode; try destruct (Py.utf8_valid (raw_stderr p));
      unfold print_stderr, ret, record; cbn [trace world];
      intros H; injection H as _ <-; cbn [trace];
      rewrite ?installs_app; simpl; now rewrite ?app_nil_r.
  - intros H; injection H as _ <-. unfold record; cbn [trace].
    rewrite installs_app. simpl. now rewrite app_nil_r.
Qed.

Lemma install_apk_installs (apk_build_path : string) (s s1 : state W) r :
  install_apk env apk_build_path s = (r, s1) ->
  installs (trace s1) = (installs (trace s) ++ [apk_build_path])%list.
Proof.
  unfold install_apk, bind, subprocess_run.
  destruct (run_outcome env _ None (world s)) as [[p|e] w];
    cbn [complete returncode stderr captured].
  - destruct (raw_returncode p =? 0); cbn [negb];
      unfold lift, decode; try destruct (Py.utf8_valid (raw_stderr p));
      unfold print_stderr, ret, record; cbn [trace world];
      intros H; injection H as _ <-; cbn [trace];
      rewrite ?installs_app; simpl; now rewrite ?app_nil_r.
  - intros H; injection H as _ <-. unfold record; cbn [trace].
    now rewrite installs_app.
Qed.

Lemma mkdir_installs (path : string) (s s1 : state W) r :
  mkdir env path s = (r, s1) -> installs (trace s1) = installs (trace s).
Proof.
  unfold mkdir. destruct (mkdir_outcome env path (world s)) as [o w].
  intros H; injection H as _ <-. unfold record; cbn [trace].
  rewrite installs_app. simpl. now rewrite app_nil_r.
Qed.

Lemma run_measure_installs (script path build_type : string)
  (s s1 : state W) r :
  run_measure_start_up_script env script path build_type s = (r, s1) ->
  installs (trace s1) = installs (trace s).
Proof.
  intros H.
  pose proof (run_measure_start_up_script_events env script path build_type s)
    as Hev.
  rewrite H in Hev; cbn [snd] in Hev. rewrite Hev, installs_app.
  simpl. now rewrite app_nil_r.
Qed.

Lemma get_result_installs (durations analyzed : string) (s s1 : state W) r :
  get_result_from_durations env durations analyzed s = (r, s1) ->
  installs (trace s1) = installs (trace s).
Proof.
  intros H.
  destruct (get_result_from_durations_events env durations analyzed s)
    as [evs [Hev Hall]].
  rewrite H in Hev; cbn [snd] in Hev.
  rewrite Hev, installs_app, (reads_and_saves_no_install _ _ _ Hall).
  now rewrite app_nil_r.
Qed.

(** One build whose analysis returns was handed to [adb install] once. *)
Lemma analyze_installs (idx : nat) (package_id script build_type : string)
  (apk : apk_metadata) (s s' : state W) :
  analyze env package_id script build_type idx apk s = (Ok tt, s') ->
  installs (trace s') = (installs (trace s) ++ [KEY_NAME apk])%list.
Proof.
  unfold analyze, analyze_nightly_for_one_build, bind.
  destruct (uninstall_apk env package_id s) as [[[]|e] s1] eqn:Hu;
    [|discriminate].
  destruct (install_apk env (KEY_NAME apk) s1) as [[ok|e] s2] eqn:Hi;
    [|discriminate].
  pose proof (uninstall_apk_installs _ _ _ _ Hu) as H1.
  pose proof (install_apk_installs _ _ _ _ Hi) as H2.
  destruct ok.
  - destruct (mkdir env BACKFILL_DIR s2) as [[[]|e] s3] eqn:Hm;
      [|discriminate].
    destruct (run_measure_start_up_script env script _ build_type s3)
      as [[[]|e] s4] eqn:Hr; [|discriminate].
    intros Hg.
    rewrite (get_result_installs _ _ _ _ _ Hg),
      (run_measure_installs _ _ _ _ _ _ Hr), (mkdir_installs _ _ _ _ Hm).
    congruence.
  - unfold ret. intros H; injection H as <-. congruence.
Qed.

(** X9. When the measurement loop returns, every build of the list was
    handed to [adb install] exactly once, in the order of the list,
    whether its installation succeeded or not. *)
Theorem every_build_installed_once (package_id script build_type : string)
  (builds : list apk_metadata) (s s' : state W) :
  run_performance_analysis_on_nightly env package_id script builds
    build_type s = (Ok tt, s') ->
  installs (trace s') = (installs (trace s) ++ map KEY_NAME builds)%list.
Proof.
  unfold run_performance_analysis_on_nightly.
  change (fun idx apk_path =>
            analyze_nightly_for_one_build env idx package_id script apk_path
              build_type)
    with (analyze env package_id script build_type).
  generalize 0%nat as idx. revert s.
  induction builds as [|apk builds IH]; intros s idx H; simpl in H.
  - unfold ret in H. injection H as <-. now rewrite app_nil_r.
  - unfold bind in H.
    destruct (analyze env package_id script build_type idx apk s)
      as [[[]|e] s1] eqn:Ha; [|discriminate].
    rewrite (IH _ _ H), (analyze_installs _ _ _ _ _ _ _ Ha).
    now rewrite <- app_assoc.
Qed.

(** X10. Only a missing durations file is tolerated.  When opening the
    durations file of an installed and measured build fails with anything
    but FileNotFoundError, [get_result_from_durations] prints nothing and
    raises it, and the measurement loop ends with that exception: the
    builds after it are not analysed. *)
Theorem unreadable_output_aborts_run (package_id script build_type : string)
  (before after : list apk_metadata) (apk : apk_metadata)
  (s0 s s1 s2 s3 s4 : state W) (e : exn) w5 :
  let body := analyze env package_id script build_type in
  let idx := List.length before in
  for_enumerate 0 before body s0 = (Ok tt, s) ->
  uninstall_apk env package_id s = (Ok tt, s1) ->
  install_apk env (KEY_NAME apk) s1 = (Ok true, s2) ->
  mkdir env BACKFILL_DIR s2 = (Ok tt, s3) ->
  run_measure_start_up_script env script (durations_path idx apk) build_type s3
  = (Ok tt, s4) ->
  detect_filetype_outcome env (durations_path idx apk) (world s4)
  = (Raise e, w5) ->
  e <> FileNotFoundError ->
  let s5 := mkstate w5
              (trace s4 ++ [EvDetectFiletype (durations_path idx apk)]) in
  get_result_from_durations env (durations_path idx apk)
                            (analyzed_path idx apk) s4 = (Raise e, s5)
  /\ run_performance_analysis_on_nightly env package_id script
       (before ++ apk :: after) build_type s0 = (Raise e, s5).
Proof.
  intros body idx Hbefore Hu Hi Hm Hrun Hd Hne s5.
  assert (Hget : get_result_from_durations env (durations_path idx apk)
                   (analyzed_path idx apk) s4 = (Raise e, s5)).
  { unfold get_result_from_durations, bind, try_except, detect_filetype.
    rewrite Hd. destruct e; try reflexivity. contradiction. }
  split; [exact Hget|].
  unfold run_performance_analysis_on_nightly.
  apply (for_enumerate_raises body before after apk s0 s s5 e Hbefore).
  fold idx. unfold body.
  rewrite (analyze_installed env idx package_id script build_type apk
             s s1 s2 s3 Hu Hi Hm).
  rewrite (bind_ok _ _ _ _ _ Hrun). exact Hget.
Qed.

(** X11. The [try] of [get_result_from_durations] covers the detection of
    the file type only: an exception of [read_from], FileNotFoundError
    included, is raised with no message and nothing saved. *)
Theorem read_failure_is_raised (durations analyzed : string) (s : state W)
  ft w1 (e : exn) w2 :
  detect_filetype_outcome env durations (world s) = (Ok ft, w1) ->
  read_from_outcome env ft durations w1 = (Raise e, w2) ->
  get_result_from_durations env durations analyzed s =
  (Raise e,
   mkstate w2 (trace s ++ [EvDetectFiletype durations; EvReadFrom durations])).
Proof.
  intros Hd Hr.
  unfold get_result_from_durations, bind, try_except, detect_filetype, ret.
  rewrite Hd. unfold read_from, record; cbn [world trace]. rewrite Hr.
  now rewrite <- app_assoc.
Qed.

End MeasurementMore.

(* ===================================================================== *)
(** ** Further properties: the commit path and the cleanup *)
(* ===================================================================== *)

Lemma split_fields_app (sep : ascii) (stem rest : string) :
  occurs sep stem = false ->
  Py.split_fields sep (stem ++ String sep rest) = (stem, Py.split sep rest).
Proof.
  unfold Py.split. induction stem as [|x stem IH]; simpl; intros H.
  - destruct (Py.split_fields sep rest). now rewrite Ascii.eqb_refl.
  - apply orb_false_iff in H. destruct H as [Hx Hstem].
    rewrite (IH Hstem), Hx. reflexivity.
Qed.

Lemma split_rev_list_output (hashes : list string) :
  Forall (fun h => occurs (ascii_of_nat 10) h = false) hashes ->
  Py.split (ascii_of_nat 10) (rev_list_output hashes)
  = (hashes ++ [""])%list.
Proof.
  induction 1 as [|h hashes Hh _ IH]; [reflexivity|].
  cbn [rev_list_output]. unfold Py.nl.
  change (h ++ String (ascii_of_nat 10) "" ++ rev_list_output hashes)
    with (h ++ String (ascii_of_nat 10) (rev_list_output hashes)).
  unfold Py.split at 1. rewrite (split_fields_app _ _ _ Hh), IH.
  reflexivity.
Qed.

Lemma filter_truthy_lines (hashes : list string) :
  Forall (fun h => Py.truthy h = true) hashes ->
  filter Py.truthy (hashes ++ [""]) = hashes.
Proof.
  induction 1 as [|h hashes Hh _ IH]; [reflexivity|].
  simpl. now rewrite Hh, IH.
Qed.

Lemma endswith_char_app (c x : ascii) (a b : string) :
  Py.endswith_char c (a ++ String x b) = Py.endswith_char c (String x b).
Proof.
  induction a as [|y a IH]; [reflexivity|].
  change ((String y a) ++ String x b) with (String y (a ++ String x b)).
  cbn [Py.endswith_char]. rewrite IH.
  destruct a; reflexivity.
Qed.

Lemma truthy_app (x : ascii) (a b : string) :
  Py.truthy (a ++ String x b) = true.
Proof. destruct a; reflexivity. Qed.

(** Joining a component that does not start with ['/']. *)
Lemma join2_component (path : string) (x : ascii) (b : string) :
  x <> "/"%char ->
  Py.join2 path (String x b) = as_directory path ++ String x b.
Proof.
  intros Hx. unfold Py.join2, as_directory; cbn [Py.startswith_char].
  destruct (Ascii.eqb_spec x "/"); [contradiction|].
  destruct (negb (Py.truthy path) || Py.endswith_char "/" path);
    [reflexivity|].
  now rewrite str_append_assoc.
Qed.

Lemma as_directory_app (q : string) (x : ascii) (b : string) :
  Py.endswith_char "/" (String x b) = false ->
  as_directory (q ++ String x b) = q ++ String x b ++ "/".
Proof.
  intros H. unfold as_directory.
  rewrite truthy_app, endswith_char_app, H. cbn [negb orb].
  now rewrite str_append_assoc.
Qed.

(** X12. Where the built APK is looked for: under the repository, at
    [app/build/outputs/apk/<channel>/app-<architecture>-<channel>.apk],
    with no doubled ['/'] when the repository path ends with one, and
    relative to the working directory when it is empty. *)
Theorem build_apk_path_layout (repository : string) (c : channel) (a : arch) :
  build_apk_path_string (Some repository) (channel_name c) (arch_name a)
  = Ok (as_directory repository ++ "app/build/outputs/apk/"
        ++ channel_name c ++ "/app-" ++ arch_name a ++ "-" ++ channel_name c
        ++ ".apk").
Proof.
  unfold build_apk_path_string, Py.os_path_join.
  destruct c, a; cbn [channel_name arch_name fold_left append];
    (rewrite join2_component by discriminate);
    repeat (rewrite join2_component by discriminate;
            rewrite as_directory_app by reflexivity);
    rewrite !str_append_assoc; reflexivity.
Qed.

Section CommitsMore.

Context {filetype measurements stats W : Type}.
Variable env : Environment filetype measurements stats W.

(** X13. Without a start commit or without an end commit the range cannot
    be written: [get_all_commits_in_commits_range] raises TypeError before
    [git] is run. *)
Theorem missing_commit_bound_raises (start_commit end_commit repository_path
  : option string) (s : state W) :
  start_commit = None \/ end_commit = None ->
  get_all_commits_in_commits_range env start_commit end_commit
    repository_path s = (Raise TypeError, s).
Proof.
  intros H. unfold get_all_commits_in_commits_range, bind, lift, str_add.
  destruct start_commit, end_commit; try reflexivity.
  destruct H; discriminate.
Qed.

(** X14. When [git rev-list] succeeds and prints one hash per line,
    [get_all_commits_in_commits_range] returns exactly those hashes, in the
    order printed. *)
Theorem listed_commits_are_returned (start_commit end_commit : string)
  (repository_path : option string) (hashes : list string)
  (s : state W) p w :
  Forall (fun h => occurs (ascii_of_nat 10) h = false) hashes ->
  Forall (fun h => Py.truthy h = true) hashes ->
  run_outcome env
    ["git"; "rev-list"; "--ancestry-path"; start_commit ++ "^.." ++ end_commit]
    repository_path (world s) = (Ok p, w) ->
  raw_returncode p = 0 ->
  raw_stdout p = rev_list_output hashes ->
  get_all_commits_in_commits_range env (Some start_commit) (Some end_commit)
    repository_path s =
  (Ok hashes,
   mkstate w
     (trace s ++ [EvRun ["git"; "rev-list"; "--ancestry-path";
                         start_commit ++ "^.." ++ end_commit]
                        repository_path])).
Proof.
  intros Hnl Hne H Hzero Hout.
  unfold get_all_commits_in_commits_range, bind, lift, str_add,
    subprocess_run.
  cbn match. rewrite str_append_assoc, H.
  cbn [complete returncode stdout stderr captured].
  rewrite Hzero, Hout. cbn [Z.eqb negb ret split_lines].
  rewrite (split_rev_list_output _ Hnl), (filter_truthy_lines _ Hne).
  reflexivity.
Qed.

(** X15. A commit that cannot be checked out is not compiled: after a
    non-zero exit status of [git checkout], [gradlew] is not run.
    [build_apk_for_commit] prints the error output of the checkout and
    returns; when that output is not UTF-8, decoding it raises
    UnicodeDecodeError instead and nothing is printed. *)
Theorem failed_checkout_skips_compile (hash : string)
  (repository_path : option string) (build_type : string) (s : state W) p w :
  run_outcome env ["git"; "checkout"; hash] repository_path (world s)
  = (Ok p, w) ->
  raw_returncode p <> 0 ->
  let checked := [EvRun ["git"; "checkout"; hash] repository_path] in
  build_apk_for_commit env hash repository_path build_type s =
  if Py.utf8_valid (raw_stderr p)
  then (Ok tt,
        mkstate w
          (trace s ++ checked
           ++ [EvStderr (checkout_failed hash (raw_stderr p))]))
  else (Raise UnicodeDecodeError, mkstate w (trace s ++ checked)).
Proof.
  intros H Hfail checked. unfold build_apk_for_commit, bind, subprocess_run.
  rewrite H. cbn [complete returncode stderr captured].
  destruct (Z.eqb_spec (raw_returncode p) 0) as [|_]; [contradiction|].
  cbn [negb]. unfold lift, decode.
  destruct (Py.utf8_valid (raw_stderr p)); [|reflexivity].
  unfold print_stderr, record; cbn [trace world].
  now rewrite <- app_assoc.
Qed.

(** X16. When the compilation fails, the message of
    [build_apk_for_commit] is built from the error output of the checkout
    that preceded it, whatever [gradlew] wrote: it is printed, and the
    function returns, when the checkout's output is UTF-8, and
    UnicodeDecodeError is raised with nothing printed when it is not. *)
Theorem failed_compile_prints_checkout_output (hash : string)
  (repository_path : option string) (build_type : string) (s : state W)
  p w q w' :
  run_outcome env ["git"; "checkout"; hash] repository_path (world s)
  = (Ok p, w) ->
  raw_returncode p = 0 ->
  run_outcome env ["./gradlew"; "assemble" ++ build_type] repository_path w
  = (Ok q, w') ->
  raw_returncode q <> 0 ->
  let built :=
    [EvRun ["git"; "checkout"; hash] repository_path;
     EvRun ["./gradlew"; "assemble" ++ build_type] repository_path] in
  build_apk_for_commit env hash repository_path build_type s =
  if Py.utf8_valid (raw_stderr p)
  then (Ok tt,
        mkstate w'
          (trace s ++ built
           ++ [EvStderr (assemble_failed build_type (raw_stderr p))]))
  else (Raise UnicodeDecodeError, mkstate w' (trace s ++ built)).
Proof.
  intros H Hzero Hq Hfail built.
  unfold build_apk_for_commit, bind, subprocess_run.
  rewrite H. cbn [complete returncode stderr captured].
  rewrite Hzero. cbn [Z.eqb negb]. unfold record at 1; cbn [world].
  rewrite Hq. cbn [complete returncode stderr captured].
  destruct (Z.eqb_spec (raw_returncode q) 0) as [|_]; [contradiction|].
  cbn [negb]. unfold lift, decode.
  destruct (Py.utf8_valid (raw_stderr p));
    unfold print_stderr, record; cbn [trace world];
    now rewrite <- !app_assoc.
Qed.

(** [move_apk_to_cwd] by the exit status of [mv]. *)
Lemma move_apk_to_cwd_cases (apk_path commit_hash : string) (s : state W) p w :
  let new_apk_name := "apk_commit_" ++ commit_hash ++ ".apk" in
  run_outcome env ["mv"; apk_path; new_apk_name] None (world s) = (Ok p, w) ->
  move_apk_to_cwd env apk_path commit_hash s =
  (if raw_returncode p =? 0 then Ok new_apk_name else Raise AttributeError,
   mkstate w (trace s ++ [EvRun ["mv"; apk_path; new_apk_name] None])).
Proof.
  intros new_apk_name H. unfold move_apk_to_cwd, bind, subprocess_run.
  fold new_apk_name. rewrite H. cbn [complete returncode stderr].
  destruct (raw_returncode p =? 0); reflexivity.
Qed.

(** X17. A [mv] that fails ends the run: it was started without capturing
    its output, its [stderr] is [None], and building the message raises
    AttributeError before anything is printed.  A [mv] that succeeds gives
    the new name [apk_commit_<hash>.apk]. *)
Theorem failed_move_raises (apk_path commit_hash : string) (s : state W) p w :
  run_outcome env ["mv"; apk_path; "apk_commit_" ++ commit_hash ++ ".apk"]
              None (world s) = (Ok p, w) ->
  let s' := mkstate w
              (trace s ++ [EvRun ["mv"; apk_path;
                                  "apk_commit_" ++ commit_hash ++ ".apk"]
                                 None]) in
  (raw_returncode p <> 0 ->
   move_apk_to_cwd env apk_path commit_hash s = (Raise AttributeError, s'))
  /\ (raw_returncode p = 0 ->
      move_apk_to_cwd env apk_path commit_hash s
      = (Ok ("apk_commit_" ++ commit_hash ++ ".apk"), s')).
Proof.
  intros H s'.
  pose proof (move_apk_to_cwd_cases apk_path commit_hash s p w H) as Hm.
  cbv zeta in Hm. split; intros Hp; rewrite Hm.
  - destruct (Z.eqb_spec (raw_returncode p) 0); [contradiction | reflexivity].
  - rewrite Hp. reflexivity.
Qed.

Lemma move_apk_to_cwd_returns (apk_path commit_hash : string)
  (s s1 : state W) name :
  move_apk_to_cwd env apk_path commit_hash s = (Ok name, s1) ->
  name = "apk_commit_" ++ commit_hash ++ ".apk".
Proof.
  unfold move_apk_to_cwd, bind, subprocess_run.
  destruct (run_outcome env _ None (world s)) as [[p|e] w];
    [|discriminate].
  cbn [complete returncode stderr].
  destruct (raw_returncode p =? 0); cbn [negb lift decode ret];
    [|discriminate].
  intros H. now injection H as <- _.
Qed.

Lemma comprehension_values {A B : Type} (f : A -> M W B) (g : A -> B)
  (l : list A) (s s' : state W) (r : list B) :
  (forall x s0 y s1, f x s0 = (Ok y, s1) -> y = g x) ->
  comprehension f l s = (Ok r, s') ->
  r = map g l.
Proof.
  intros Hf. revert s r. induction l as [|x l IH]; intros s r H; simpl in H.
  - unfold ret in H. now injection H as <- _.
  - unfold bind in H.
    destruct (f x s) as [[y|e] s1] eqn:Hx; [|discriminate].
    destruct (comprehension f l s1) as [[ys|e] s2] eqn:Hl; [|discriminate].
    unfold ret in H. injection H as <- <-.
    simpl. now rewrite (Hf _ _ _ _ Hx), (IH _ _ Hl).
Qed.

(** X18. When [build_apks_for_commits] returns, it returns one descriptor
    per commit of the listing, in the order of the listing, each named
    [apk_commit_<hash>.apk], with its commit, no date and the architecture
    given: a commit whose checkout or compilation failed has its
    descriptor like the others. *)
Theorem one_descriptor_per_commit
  (start_commit end_commit repository_path : option string)
  (build_type architecture remote_name : string) (s s' : state W)
  (l : list apk_metadata) :
  build_apks_for_commits env start_commit end_commit repository_path
    build_type architecture remote_name s = (Ok l, s') ->
  exists commits s1 s2,
    fetch_repository env repository_path remote_name s = (Ok tt, s1)
    /\ get_all_commits_in_commits_range env start_commit end_commit
         repository_path s1 = (Ok commits, s2)
    /\ l = map (commit_descriptor architecture) commits.
Proof.
  unfold build_apks_for_commits. unfold bind at 1.
  destruct (fetch_repository env repository_path remote_name s)
    as [[[]|e] s1]; [|discriminate].
  unfold bind at 1.
  destruct (get_all_commits_in_commits_range env start_commit end_commit
              repository_path s1) as [[commits|e] s2] eqn:Hg; [|discriminate].
  intros H. exists commits, s1, s2. repeat split; [exact Hg|].
  apply (comprehension_values _ (commit_descriptor architecture) _ _ _ _)
    in H; [exact H|].
  intros c s0 y s3. unfold bind, lift.
  destruct (build_apk_for_commit env c repository_path build_type s0)
    as [[[]|e] s4]; [|discriminate].
  destruct (build_apk_path_string repository_path build_type architecture)
    as [path|e]; [|discriminate].
  destruct (move_apk_to_cwd env path c s4) as [[name|e] s5] eqn:Hm;
    [|discriminate].
  unfold ret. intros Hy. injection Hy as <- _.
  now rewrite (move_apk_to_cwd_returns _ _ _ _ _ Hm).
Qed.

(** X19. When every [rm] can be started, [cleanup] runs one [rm] per
    descriptor, on its file name and in the order of the list, and
    returns: the exit status of an [rm] is not looked at. *)
Theorem cleanup_removes_each (array_of_apk_path : list apk_metadata)
  (s : state W) :
  (forall argv cwd w, exists p w', run_outcome env argv cwd w = (Ok p, w')) ->
  exists s',
    cleanup env array_of_apk_path s = (Ok tt, s')
    /\ trace s'
       = (trace s
          ++ map (fun i => EvRun ["rm"; KEY_NAME i] None) array_of_apk_path)%list.
Proof.
  intros Hrun. unfold cleanup. generalize 0%nat as idx. revert s.
  induction array_of_apk_path as [|i l IH]; intros s idx; simpl.
  - exists s. split; [reflexivity | now rewrite app_nil_r].
  - unfold bind at 1 2, subprocess_run.
    destruct (Hrun ["rm"; KEY_NAME i] None (world s)) as [p [w Hp]].
    rewrite Hp. unfold ret at 1.
    destruct (IH (record (EvRun ["rm"; KEY_NAME i] None) w s) (S idx))
      as [s' [Hc Ht]].
    exists s'. split; [exact Hc|].
    rewrite Ht. unfold record; cbn [trace]. now rewrite <- app_assoc.
Qed.

End CommitsMore.

(* ===================================================================== *)
(** ** The further properties at work on concrete runs *)
(* ===================================================================== *)

Lemma main_stops_at_validation_witness :
  main Demo.good_repo (Demo.commit_args (Some "a") (Some "b") None) Demo.start
  = (Raise (Exception_
       "Provide the path to your fenix repository to run this script with the commits option"),
     Demo.start).
Proof.
  apply (main_stops_at_validation Demo.good_repo
           (Demo.commit_args (Some "a") (Some "b") None)).
  reflexivity.
Defined.

Lemma main_without_startdate_witness :
  let args := Args.mk ChNightly ArmeabiV7a BUILD_SRC_TASKCLUSTER None
                      (Demo.jan 3) None None None None false in
  validate_args args = Ok tt
  /\ main Demo.missing_jan2 args Demo.start = (Raise TypeError, Demo.start).
Proof.
  intros args.
  apply (main_without_startdate Demo.missing_jan2 args Demo.start);
    reflexivity.
Defined.

Lemma download_requests_each_date_witness :
  let dates := [Demo.jan 1; Demo.jan 2; Demo.jan 3] in
  let run := download_nightly_for_range Demo.missing_jan2 dates Demo.v7a
               Demo.start in
  requests (trace (snd run))
  = (requests (trace Demo.start)
     ++ map (fun d => (nightly_url d, nightly_filename d)) dates)%list.
Proof.
  intros dates run.
  apply (download_requests_each_date Demo.missing_jan2 dates Demo.v7a
           Demo.start (snd run) [Demo.build 1; Demo.build 3]).
  vm_compute. reflexivity.
Defined.

Lemma download_descriptors_in_order_witness :
  exists kept,
    subseq kept [Demo.jan 1; Demo.jan 2; Demo.jan 3]
    /\ [Demo.build 1; Demo.build 3]
       = map (fun d => nightly_descriptor d Demo.v7a) kept.
Proof.
  apply (download_descriptors_in_order Demo.missing_jan2
           [Demo.jan 1; Demo.jan 2; Demo.jan 3] Demo.v7a Demo.start
           (snd (download_nightly_for_range Demo.missing_jan2
                   [Demo.jan 1; Demo.jan 2; Demo.jan 3] Demo.v7a Demo.start))).
  vm_compute. reflexivity.
Defined.

Lemma every_build_installed_once_witness :
  installs (trace (Demo.analysed Demo.picky_device 3))
  = (installs (trace Demo.start) ++ map KEY_NAME Demo.builds)%list.
Proof.
  apply (every_build_installed_once Demo.picky_device Demo.pkg Demo.script
           Demo.bt Demo.builds Demo.start (Demo.analysed Demo.picky_device 3)).
  vm_compute. reflexivity.
Defined.

Lemma unreadable_output_aborts_run_witness :
  let env := Demo.locked_output in
  let path := durations_path 0 (Demo.build 1) in
  let s4 := Demo.measured env path (Demo.build 1) Demo.start in
  let s5 := mkstate 5%nat (trace s4 ++ [EvDetectFiletype path]) in
  get_result_from_durations env path (analyzed_path 0 (Demo.build 1)) s4
  = (Raise (OSError "Permission denied"), s5)
  /\ run_performance_analysis_on_nightly env Demo.pkg Demo.script
       ([] ++ Demo.build 1 :: [Demo.build 2; Demo.build 3]) Demo.bt Demo.start
     = (Raise (OSError "Permission denied"), s5).
Proof.
  intros env path s4 s5.
  refine (unreadable_output_aborts_run env Demo.pkg Demo.script Demo.bt
            [] [Demo.build 2; Demo.build 3] (Demo.build 1) Demo.start
            Demo.start
            (Demo.uninstalled env Demo.start)
            (Demo.installed env (Demo.build 1) Demo.start)
            (Demo.prepared env (Demo.build 1) Demo.start)
            s4 (OSError "Permission denied") 5%nat _ _ _ _ _ _ _).
  - reflexivity.
  - vm_compute. reflexivity.
  - vm_compute. reflexivity.
  - vm_compute. reflexivity.
  - vm_compute. reflexivity.
  - vm_compute. reflexivity.
  - discriminate.
Defined.

Lemma read_failure_is_raised_witness :
  get_result_from_durations Demo.vanishing_output "d.txt" "a.txt" Demo.start
  = (Raise FileNotFoundError,
     mkstate 2%nat
       (trace Demo.start ++ [EvDetectFiletype "d.txt"; EvReadFrom "d.txt"])).
Proof.
  apply (read_failure_is_raised Demo.vanishing_output "d.txt" "a.txt"
           Demo.start tt 1%nat FileNotFoundError 2%nat);
    reflexivity.
Defined.

Lemma missing_commit_bound_raises_witness :
  get_all_commits_in_commits_range Demo.good_repo (Some "a") None (Some "/r")
    Demo.start = (Raise TypeError, Demo.start).
Proof.
  apply (missing_commit_bound_raises Demo.good_repo (Some "a") None
           (Some "/r") Demo.start).
  right. reflexivity.
Defined.

Lemma listed_commits_are_returned_witness :
  get_all_commits_in_commits_range Demo.good_repo (Some "a") (Some "b")
    (Some "/r") Demo.start =
  (Ok ["c2"; "c1"],
   mkstate 1%nat
     (trace Demo.start
      ++ [EvRun ["git"; "rev-list"; "--ancestry-path"; "a" ++ "^.." ++ "b"]
                (Some "/r")])).
Proof.
  apply (listed_commits_are_returned Demo.good_repo "a" "b" (Some "/r")
           ["c2"; "c1"] Demo.start
           (mkraw 0 ("c2" ++ Py.nl ++ "c1" ++ Py.nl) "") 1%nat).
  - repeat constructor.
  - repeat constructor.
  - vm_compute. reflexivity.
  - reflexivity.
  - reflexivity.
Defined.

Lemma failed_checkout_skips_compile_witness :
  let checked := [EvRun ["git"; "checkout"; "c1"] (Some "/r")] in
  let error := "error: pathspec 'c1' did not match" ++ Py.nl in
  build_apk_for_commit Demo.bad_checkout "c1" (Some "/r") "debug" Demo.start =
  if Py.utf8_valid error
  then (Ok tt,
        mkstate 1%nat
          (trace Demo.start ++ checked
           ++ [EvStderr (checkout_failed "c1" error)]))
  else (Raise UnicodeDecodeError, mkstate 1%nat (trace Demo.start ++ checked)).
Proof.
  apply (failed_checkout_skips_compile Demo.bad_checkout "c1" (Some "/r")
           "debug" Demo.start
           (mkraw 1 "" ("error: pathspec 'c1' did not match" ++ Py.nl)) 1%nat).
  - vm_compute. reflexivity.
  - simpl. lia.
Defined.

Lemma failed_compile_prints_checkout_output_witness :
  let built :=
    [EvRun ["git"; "checkout"; "c1"] (Some "/r");
     EvRun ["./gradlew"; "assemble" ++ "debug"] (Some "/r")] in
  let error := "HEAD is now at c1" ++ Py.nl in
  build_apk_for_commit Demo.bad_compile "c1" (Some "/r") "debug" Demo.start =
  if Py.utf8_valid error
  then (Ok tt,
        mkstate 2%nat
          (trace Demo.start ++ built
           ++ [EvStderr (assemble_failed "debug" error)]))
  else (Raise UnicodeDecodeError, mkstate 2%nat (trace Demo.start ++ built)).
Proof.
  apply (failed_compile_prints_checkout_output Demo.bad_compile "c1"
           (Some "/r") "debug" Demo.start
           (mkraw 0 "" ("HEAD is now at c1" ++ Py.nl)) 1%nat
           (mkraw 1 "" "BUILD FAILED") 2%nat).
  - vm_compute. reflexivity.
  - reflexivity.
  - vm_compute. reflexivity.
  - simpl. lia.
Defined.

Lemma failed_move_raises_witness :
  let s' := mkstate 1%nat
              (trace Demo.start
               ++ [EvRun ["mv"; "/r/app.apk"; "apk_commit_" ++ "c1" ++ ".apk"]
                         None]) in
  move_apk_to_cwd Demo.no_apk "/r/app.apk" "c1" Demo.start
  = (Raise AttributeError, s').
Proof.
  intros s'.
  refine (proj1 (failed_move_raises Demo.no_apk "/r/app.apk" "c1" Demo.start
                   (mkraw 1 "" "") 1%nat _) _).
  - vm_compute. reflexivity.
  - simpl. lia.
Defined.

Lemma one_descriptor_per_commit_witness :
  exists commits s1 s2,
    fetch_repository Demo.good_repo (Some "/r") "" Demo.start = (Ok tt, s1)
    /\ get_all_commits_in_commits_range Demo.good_repo (Some "a") (Some "b")
         (Some "/r") s1 = (Ok commits, s2)
    /\ [commit_descriptor "arm64-v8a" "c2"; commit_descriptor "arm64-v8a" "c1"]
       = map (commit_descriptor "arm64-v8a") commits.
Proof.
  apply (one_descriptor_per_commit Demo.good_repo (Some "a") (Some "b")
           (Some "/r") "debug" "arm64-v8a" "" Demo.start
           (snd (build_apks_for_commits Demo.good_repo (Some "a") (Some "b")
                   (Some "/r") "debug" "arm64-v8a" "" Demo.start))).
  vm_compute. reflexivity.
Defined.

Lemma cleanup_removes_each_witness :
  exists s',
    cleanup Demo.no_apk Demo.builds Demo.start = (Ok tt, s')
    /\ trace s'
       = (trace Demo.start
          ++ map (fun i => EvRun ["rm"; KEY_NAME i] None) Demo.builds)%list.
Proof.
  apply (cleanup_removes_each Demo.no_apk Demo.builds Demo.start).
  intros argv cwd w. simpl.
  destruct (Demo.is_argv ["mv"] argv); eexists; eexists; reflexivity.
Defined.

Lemma fetch_repository_cases_witness :
  let fetched := [EvRun ["git"; "fetch"; "upstream"] (Some "/r")] in
  fetch_repository Demo.offline_remote (Some "/r") "" Demo.start =
  if 128 =? 0
  then (Ok tt, mkstate 1%nat (trace Demo.start ++ fetched))
  else if Py.utf8_valid "fatal: unable to access"
  then (Ok tt,
        mkstate 1%nat
          (trace Demo.start ++ fetched
           ++ [EvStderr (fetch_failed (Some "/r") "fatal: unable to access")]))
  else (Raise UnicodeDecodeError, mkstate 1%nat (trace Demo.start ++ fetched)).
Proof.
  apply (fetch_repository_cases Demo.offline_remote (Some "/r") ""
           Demo.start (mkraw 128 "" "fatal: unable to access") 1%nat).
  vm_compute. reflexivity.
Defined.

(** The other branch of X15, X16 and X20: error output that is not UTF-8
    cannot be reported, and the exception ends the step after the process
    has run. *)
Example undecodable_git_error_raises :
  fetch_repository Demo.garbled_git (Some "/r") "" Demo.start
  = (Raise UnicodeDecodeError,
     mkstate 1%nat [EvRun ["git"; "fetch"; "upstream"] (Some "/r")])
  /\ build_apk_for_commit Demo.garbled_git "c1" (Some "/r") "debug" Demo.start
     = (Raise UnicodeDecodeError,
        mkstate 1%nat [EvRun ["git"; "checkout"; "c1"] (Some "/r")]).
Proof. split; vm_compute; reflexivity. Qed.
